(** * S3 upload logger: a shallow embedding of [lambda/s3_upload_logger.py]

    The development models the Lambda handler of the repository, its two
    helpers [format_size] and [categorize_file], and the values they work
    on, and proves the properties the design document states about them.

    Conventions of the model.
    - An event is a decoded JSON document ([json]).  A Python [dict] decoded
      from JSON is an association list with distinct keys, searched from
      the left and iterated in order.
    - A Python [str] is a [string] holding its UTF-8 encoding; iterating
      over it yields its characters, not its bytes.  [str.lower] follows the
      Unicode database of the interpreter, which is no part of the program:
      it is a parameter of the model ([unicode]), known through three facts
      that hold of the interpreter's method.
    - Python [int] is [Z].  Python [float] is IEEE 754 binary64, through the
      specification of the standard library ([SpecFloat], precision 53,
      [emax] 1024): true division and [float(n)] of an [int] round to
      nearest even and raise [OverflowError] out of range, and ['.2f']
      prints the exact binary value rounded to nearest even.
    - A computation that may raise returns a [result].
    - The ambient inputs of the handler (process environment, wall clock)
      are explicit arguments; what it writes to the logger is returned as a
      list of log lines whose interpolated values are kept as values.
    - The text [json.dumps] produces is kept symbolic ([json_dumps v]): the
      body of the response is the serialisation of an explicit value. *)

From Stdlib Require Import ZArith List String Ascii Bool Lia.
From Stdlib Require Import Floats.SpecFloat DecimalString.
Import ListNotations.

Local Open Scope string_scope.
Local Open Scope Z_scope.

(** ** JSON values *)

#[local] Set Warnings "-register-all".

Inductive json : Type :=
| JNull
| JBool (b : bool)
| JInt (n : Z)
| JFloat (f : spec_float)
| JStr (s : string)
| JList (items : list json)
| JDict (fields : list (string * json)).

(** ** Exceptions and results *)

(** The exceptions the handler can meet; the payload names the offending
    Python type or operation (the wording of [str(e)] is not modelled). *)
Inductive exn : Type :=
| AttributeError (type_name attribute : string)
| TypeError (what : string)
| ValueError (what : string)
| IndexError (what : string)
| OverflowError (what : string).

Inductive result (A : Type) : Type :=
| OK (a : A)
| Raise (e : exn).

Arguments OK {A} a.
Arguments Raise {A} e.

Definition bind {A B : Type} (r : result A) (k : A -> result B) : result B :=
  match r with
  | OK a => k a
  | Raise e => Raise e
  end.

Notation "x <- r ;; k" := (bind r (fun x => k))
  (at level 61, r at next level, right associativity).
Notation "' p <- r ;; k" := (bind r (fun p => k))
  (at level 61, p pattern, r at next level, right associativity).

Definition type_name (v : json) : string :=
  match v with
  | JNull => "NoneType"
  | JBool _ => "bool"
  | JInt _ => "int"
  | JFloat _ => "float"
  | JStr _ => "str"
  | JList _ => "list"
  | JDict _ => "dict"
  end.

(** ** Dictionaries *)

Fixpoint lookup (key : string) (fields : list (string * json)) : option json :=
  match fields with
  | [] => None
  | (k, v) :: rest => if String.eqb key k then Some v else lookup key rest
  end.

(** [d.get(key, default)]: only a [dict] has the method. *)
Definition dict_get (d : json) (key : string) (default : json) : result json :=
  match d with
  | JDict fields =>
      match lookup key fields with
      | Some v => OK v
      | None => OK default
      end
  | _ => Raise (AttributeError (type_name d) "get")
  end.

(** ** Binary64 arithmetic used by [format_size] *)

Module F64.

Definition prec : Z := 53.
Definition emax : Z := 1024.

(** The integer [n] times [2^e], rounded to nearest even. *)
Definition of_scaled (n e : Z) : spec_float :=
  binary_normalize prec emax n e false.

Definition of_Z (n : Z) : spec_float := of_scaled n 0.

(** The float [1024.0]. *)
Definition f1024 : spec_float := Eval vm_compute in of_Z 1024.

Definition div (x y : spec_float) : spec_float := SFdiv prec emax x y.

Definition is_infinity (x : spec_float) : bool :=
  match x with
  | S754_infinity _ => true
  | _ => false
  end.

End F64.

(** ** Decimal output *)

Definition string_of_N (n : N) : string :=
  NilZero.string_of_uint (N.to_uint n).

Definition is_digit (c : ascii) : bool :=
  (Nat.leb 48 (nat_of_ascii c) && Nat.leb (nat_of_ascii c) 57)%bool.

(** An integer below 100 on two digits. *)
Definition two_digits (n : N) : string :=
  (string_of_N (n / 10) ++ string_of_N (n mod 10))%N.

(** Nearest integer to [num / den], ties to even ([0 < den]). *)
Definition round_half_even (num den : Z) : Z :=
  let q := num / den in
  let r := num mod den in
  match 2 * r ?= den with
  | Lt => q
  | Gt => q + 1
  | Eq => if Z.even q then q else q + 1
  end.

(** The hundredths of [m * 2^e], rounded to nearest even. *)
Definition hundredths (m : positive) (e : Z) : Z :=
  match e with
  | Zneg k => round_half_even (100 * Zpos m) (Zpos (Pos.shiftl 1 (Npos k)))
  | _ => 100 * Zpos m * 2 ^ e
  end.

Definition sign_string (s : bool) : string := if s then "-" else "".

(** [format(x, '.2f')] of a float: the exact binary value, correctly rounded
    to two decimals. *)
Definition format_2f (x : spec_float) : string :=
  match x with
  | S754_nan => "nan"
  | S754_infinity s => sign_string s ++ "inf"
  | S754_zero s => sign_string s ++ "0.00"
  | S754_finite s m e =>
      let h := Z.to_N (hundredths m e) in
      sign_string s ++ string_of_N (h / 100) ++ "." ++ two_digits (h mod 100)
  end.

(** ** [format_size] *)

Definition size_names : list string := ["B"; "KB"; "MB"; "GB"; "TB"].

(** [size_bytes == 0]; equality between unrelated types is [False]. *)
Definition eq_zero (v : json) : bool :=
  match v with
  | JInt n => n =? 0
  | JBool b => negb b
  | JFloat f => SFeqb f (S754_zero false)
  | _ => false
  end.

(** [size_bytes >= 1024] *)
Definition ge_1024 (v : json) : result bool :=
  match v with
  | JInt n => OK (1024 <=? n)
  | JBool _ => OK false
  | JFloat f => OK (SFleb F64.f1024 f)
  | _ => Raise (TypeError ("'>=' not supported between instances of '"
                           ++ type_name v ++ "' and 'int'"))
  end.

(** Conversion of an [int] quotient [n / 2^k] to [float], as true division
    and [float(n)] do it: correctly rounded, an error out of range. *)
Definition float_of_scaled (n k : Z) (what : string) : result spec_float :=
  let f := F64.of_scaled n (- k) in
  if F64.is_infinity f then Raise (OverflowError what) else OK f.

Definition Z_of_bool (b : bool) : Z := if b then 1 else 0.

(** [size_bytes / 1024] *)
Definition truediv_1024 (v : json) : result json :=
  match v with
  | JInt n =>
      f <- float_of_scaled n 10 "integer division result too large for a float" ;;
      OK (JFloat f)
  | JBool b =>
      f <- float_of_scaled (Z_of_bool b) 10
             "integer division result too large for a float" ;;
      OK (JFloat f)
  | JFloat f => OK (JFloat (F64.div f F64.f1024))
  | _ => Raise (TypeError ("unsupported operand type(s) for /: '"
                           ++ type_name v ++ "' and 'int'"))
  end.

(** [f"{size_bytes:.2f}"] *)
Definition format_value_2f (v : json) : result string :=
  match v with
  | JInt n =>
      f <- float_of_scaled n 0 "int too large to convert to float" ;;
      OK (format_2f f)
  | JBool b =>
      f <- float_of_scaled (Z_of_bool b) 0 "int too large to convert to float" ;;
      OK (format_2f f)
  | JFloat f => OK (format_2f f)
  | JStr _ => Raise (ValueError "Unknown format code 'f' for object of type 'str'")
  | _ => Raise (TypeError ("unsupported format string passed to "
                           ++ type_name v ++ ".__format__"))
  end.

(** The [while] loop.  [room] is [len(size_names) - 1 - i], the number of
    units still ahead of index [i]; the comparison is evaluated before the
    index test, as [and] does. *)
Fixpoint advance (room : nat) (v : json) (i : nat) : result (json * nat) :=
  big <- ge_1024 v ;;
  match room with
  | O => OK (v, i)
  | S room' =>
      if big
      then v' <- truediv_1024 v ;; advance room' v' (S i)
      else OK (v, i)
  end.

Definition index_name (i : nat) : result string :=
  match nth_error size_names i with
  | Some u => OK u
  | None => Raise (IndexError "tuple index out of range")
  end.

Definition format_size (size_bytes : json) : result string :=
  if eq_zero size_bytes then OK "0 B"
  else
    '(v, i) <- advance (List.length size_names - 1) size_bytes 0 ;;
    digits <- format_value_2f v ;;
    unit <- index_name i ;;
    OK (digits ++ " " ++ unit).

(** ** Strings *)

(** A Python [str] is kept as its UTF-8 encoding.  The ASCII characters are
    the bytes below 128; any other character is a lead byte followed by
    continuation bytes, the bytes from 128 to 191.  Equality, ['.' in s] and
    [s.split('.')] read the same on the encoding as on the characters: the
    byte of an ASCII character is part of no other character. *)
Definition is_ascii_char (c : ascii) : bool := Nat.ltb (nat_of_ascii c) 128.

Fixpoint is_ascii (s : string) : bool :=
  match s with
  | EmptyString => true
  | String c rest => (is_ascii_char c && is_ascii rest)%bool
  end.

Definition is_continuation (c : ascii) : bool :=
  let n := nat_of_ascii c in (Nat.leb 128 n && Nat.ltb n 192)%bool.

(** The continuation bytes a string starts with, and the characters that
    follow them. *)
Fixpoint split_characters (s : string) : string * list string :=
  match s with
  | EmptyString => (EmptyString, [])
  | String c rest =>
      let '(tail, items) := split_characters rest in
      if is_continuation c then (String c tail, items)
      else (EmptyString, String c tail :: items)
  end.

(** [list(s)]: the characters of a string, each a string of its own. *)
Definition characters (s : string) : list string := snd (split_characters s).

(** [str.lower] on one ASCII character. *)
Definition lower_ascii (c : ascii) : ascii :=
  let n := nat_of_ascii c in
  if (Nat.leb 65 n && Nat.leb n 90)%bool then ascii_of_nat (n + 32) else c.

(** [str.lower] on a string of ASCII characters. *)
Fixpoint ascii_lower (s : string) : string :=
  match s with
  | EmptyString => EmptyString
  | String c rest => String (lower_ascii c) (ascii_lower rest)
  end.

(** [sep in s] for a one-character [sep]. *)
Fixpoint has_char (sep : ascii) (s : string) : bool :=
  match s with
  | EmptyString => false
  | String c rest => (Ascii.eqb c sep || has_char sep rest)%bool
  end.

(** [s.split(sep)] for a one-character [sep]; the list is never empty. *)
Fixpoint split (sep : ascii) (s : string) : list string :=
  match s with
  | EmptyString => [EmptyString]
  | String c rest =>
      if Ascii.eqb c sep then EmptyString :: split sep rest
      else
        match split sep rest with
        | piece :: pieces => String c piece :: pieces
        | [] => [String c EmptyString]
        end
  end.

(** [parts[-1]] *)
Definition index_last (parts : list string) : result string :=
  match rev parts with
  | x :: _ => OK x
  | [] => Raise (IndexError "list index out of range")
  end.

Definition dot : ascii := "."%char.

(** [s.lower()].  The method maps each character through the case mappings
    of the Unicode database built into the interpreter; the program does
    not contain them, and the model takes the method as a parameter.  What
    the program relies on is stated with it, and holds of the method of the
    interpreter:
    - on a string of ASCII characters, the capital letters [A] to [Z] are
      replaced by the small ones and nothing else changes;
    - every character the method produces is its own lower case, so that
      lower-casing twice is lower-casing once (the only rule that looks at
      the neighbours of a character, for the capital sigma, chooses between
      two small letters);
    - '.' is the lower case of '.' and of no other character. *)
Class unicode : Type := {
  lower : string -> string;
  lower_ascii_string : forall s, is_ascii s = true -> lower s = ascii_lower s;
  lower_idempotent : forall s, lower (lower s) = lower s;
  has_char_lower : forall s, has_char dot (lower s) = has_char dot s
}.

(** The case mappings cut down to the ASCII letters: [str.lower] as it acts
    on the strings of ASCII characters.  The examples are evaluated here. *)
#[export] Instance ascii_letters : unicode.
Proof.
  refine {| lower := ascii_lower |}.
  - reflexivity.
  - induction s as [|c s IH]; cbn [ascii_lower]; [reflexivity|].
    rewrite IH. f_equal. destruct c as [[] [] [] [] [] [] [] []]; reflexivity.
  - induction s as [|c s IH]; cbn [ascii_lower has_char]; [reflexivity|].
    rewrite IH. f_equal. destruct c as [[] [] [] [] [] [] [] []]; reflexivity.
Defined.

(** ** [categorize_file] *)

(** The table, in the insertion order of the dictionary literal. *)
Definition categories : list (string * list string) :=
  [ ("resume",  ["pdf"; "doc"; "docx"; "txt"; "rtf"; "odt"]);
    ("image",   ["jpg"; "jpeg"; "png"; "gif"; "webp"; "svg"; "bmp"; "ico"]);
    ("data",    ["csv"; "xlsx"; "xls"; "json"; "xml"; "yaml"; "yml"]);
    ("archive", ["zip"; "tar"; "gz"; "rar"; "7z"]);
    ("video",   ["mp4"; "avi"; "mov"; "mkv"; "webm"]);
    ("audio",   ["mp3"; "wav"; "flac"; "aac"; "ogg"]) ].

(** [x in extensions] *)
Definition mem (x : string) (extensions : list string) : bool :=
  existsb (String.eqb x) extensions.

(** The [for category, extensions in categories.items()] loop. *)
Fixpoint scan {U : unicode} (extension : string)
                    (items : list (string * list string))
  : option string :=
  match items with
  | [] => None
  | (category, extensions) :: rest =>
      if mem (lower extension) extensions then Some category
      else scan extension rest
  end.

Definition categorize_file {U : unicode} (extension : string) : string :=
  match scan extension categories with
  | Some category => category
  | None => "other"
  end.

(** ** The handler *)

(** The text [json.dumps] returns for a value; the text is kept symbolic. *)
Inductive serialized : Type :=
| json_dumps (v : json).

Definition payload (s : serialized) : json :=
  match s with json_dumps v => v end.

Record response : Type := {
  statusCode : Z;
  body : serialized
}.

(** A log line: a level and the pieces of the formatted message, with the
    interpolated values kept as values. *)
Inductive level : Type := INFO | ERROR.

Inductive fragment : Type :=
| Text (s : string)
| Value (v : json)
| Dumped (s : serialized)
| Exception (e : exn)
| Returned (r : response).

Definition log_line : Type := (level * list fragment)%type.

Definition info (message : list fragment) : log_line := (INFO, message).
Definition error (message : list fragment) : log_line := (ERROR, message).

(** [os.environ] as far as the handler reads it. *)
Record environ : Type := {
  PROJECT_NAME : option string;
  ENVIRONMENT : option string
}.

Definition environ_get (value : option string) (default : string) : string :=
  match value with
  | Some s => s
  | None => default
  end.

(** The dictionary [log_entry]. *)
Record log_entry : Type := {
  timestamp : json;
  project : string;
  environment : string;
  event_type : json;
  bucket : json;
  object_key : json;
  object_size_bytes : json;
  object_size_readable : string;
  source_ip : json;
  user_identity : json
}.

(** ['.' in object_key] *)
Definition contains_dot (object_key : json) : result bool :=
  match object_key with
  | JStr s => OK (has_char dot s)
  | JList items =>
      OK (existsb (fun v => match v with
                            | JStr s => String.eqb s "."
                            | _ => false
                            end) items)
  | JDict fields =>
      OK (match lookup "." fields with Some _ => true | None => false end)
  | _ => Raise (TypeError ("argument of type '" ++ type_name object_key
                           ++ "' is not iterable"))
  end.

(** [object_key.split('.')] *)
Definition split_dot (object_key : json) : result (list string) :=
  match object_key with
  | JStr s => OK (split dot s)
  | _ => Raise (AttributeError (type_name object_key) "split")
  end.

(** [object_key.split('.')[-1].lower() if '.' in object_key else 'unknown'] *)
Definition file_extension {U : unicode} (object_key : json) : result string :=
  dotted <- contains_dot object_key ;;
  if dotted
  then parts <- split_dot object_key ;;
       x <- index_last parts ;;
       OK (lower x)
  else OK "unknown".

Definition rule : string :=
  "============================================================".

(** [for record in ...]: the items a value yields when iterated: the
    elements of a list, the characters of a string, the keys of a [dict]. *)
Definition iterate (v : json) : result (list json) :=
  match v with
  | JList items => OK items
  | JStr s => OK (map JStr (characters s))
  | JDict fields => OK (map (fun kv => JStr (fst kv)) fields)
  | _ => Raise (TypeError ("'" ++ type_name v ++ "' object is not iterable"))
  end.

Section Handler.

Context {U : unicode}.

Variable env : environ.

(** [clock k] is what [datetime.now().isoformat()] returns while the
    record at position [k] of the batch is processed. *)
Variable clock : nat -> string.

Definition project_name : string := environ_get (PROJECT_NAME env) "job-portal".
Definition environment_name : string := environ_get (ENVIRONMENT env) "dev".

(** Lines 45 to 64: the fields of one record, with their defaults. *)
Definition extract (now : string) (record : json) : result log_entry :=
  s3_info <- dict_get record "s3" (JDict []) ;;
  bucket_dict <- dict_get s3_info "bucket" (JDict []) ;;
  bucket_name <- dict_get bucket_dict "name" (JStr "Unknown") ;;
  object_dict <- dict_get s3_info "object" (JDict []) ;;
  object_key <- dict_get object_dict "key" (JStr "Unknown") ;;
  object_dict' <- dict_get s3_info "object" (JDict []) ;;
  object_size <- dict_get object_dict' "size" (JInt 0) ;;
  event_time <- dict_get record "eventTime" (JStr now) ;;
  event_name <- dict_get record "eventName" (JStr "Unknown") ;;
  readable <- format_size object_size ;;
  request_parameters <- dict_get record "requestParameters" (JDict []) ;;
  source <- dict_get request_parameters "sourceIPAddress" (JStr "Unknown") ;;
  identity <- dict_get record "userIdentity" (JDict []) ;;
  principal <- dict_get identity "principalId" (JStr "Unknown") ;;
  OK {| timestamp := event_time;
        project := project_name;
        environment := environment_name;
        event_type := event_name;
        bucket := bucket_name;
        object_key := object_key;
        object_size_bytes := object_size;
        object_size_readable := readable;
        source_ip := source;
        user_identity := principal |}.

(** Lines 67 to 75. *)
Definition detail_lines (entry : log_entry) : list log_line :=
  [ info [Text rule];
    info [Text "S3 UPLOAD EVENT DETAILS"];
    info [Text rule];
    info [Text "Timestamp: "; Value (timestamp entry)];
    info [Text "Bucket: "; Value (bucket entry)];
    info [Text "Object Key: "; Value (object_key entry)];
    info [Text "Size: "; Text (object_size_readable entry); Text " (";
          Value (object_size_bytes entry); Text " bytes)"];
    info [Text "Event Type: "; Value (event_type entry)];
    info [Text "Source IP: "; Value (source_ip entry)] ].

(** The [except] clause. *)
Definition except_lines (e : exn) (record : json) : list log_line :=
  [ error [Text "Error processing record: "; Exception e];
    error [Text "Record: "; Dumped (json_dumps record)] ].

(** The entry appended to [processed_records]. *)
Definition processed_entry (bucket_name key : json) (category : string) : json :=
  JDict [("bucket", bucket_name); ("key", key); ("category", JStr category)].

(** The body of the [for] loop: the lines logged for one record and the
    entry it contributes, or the exception the [except] clause caught. *)
Definition process_record (now : string) (record : json)
  : list log_line * result json :=
  match extract now record with
  | Raise e => (except_lines e record, Raise e)
  | OK entry =>
      match file_extension (object_key entry) with
      | Raise e => ((detail_lines entry ++ except_lines e record)%list, Raise e)
      | OK extension =>
          let file_category := categorize_file extension in
          ((detail_lines entry ++
            [ info [Text "File Category: "; Text file_category];
              info [Text "File Extension: "; Text extension];
              info [Text rule] ])%list,
           OK (processed_entry (bucket entry) (object_key entry) file_category))
      end
  end.

(** The [for] loop, from position [k] of the batch on; [processed_records]
    is the list as it stands when the loop reaches that position. *)
Fixpoint process_records (k : nat) (records : list json)
                         (processed_records : list json)
  : list log_line * list json :=
  match records with
  | [] => ([], processed_records)
  | record :: rest =>
      let '(lines, outcome) := process_record (clock k) record in
      let processed_records' :=
        match outcome with
        | OK entry => (processed_records ++ [entry])%list
        | Raise _ => processed_records
        end in
      let '(lines', final) := process_records (S k) rest processed_records' in
      ((lines ++ lines')%list, final)
  end.

Definition success_message : string := "S3 upload event(s) logged successfully".

Definition make_response (processed_records : list json) : response :=
  {| statusCode := 200;
     body := json_dumps
               (JDict [("message", JStr success_message);
                       ("records_processed",
                        JInt (Z.of_nat (List.length processed_records)));
                       ("details", JList processed_records)]) |}.

(** [lambda_handler(event, context)]: the lines logged and the response
    returned, or the exception that leaves the handler. *)
Definition lambda_handler (event : json) : list log_line * result response :=
  let opening :=
    [ info [Text "["; Text project_name; Text "] S3 Upload Event Received"];
      info [Text "Full Event: "; Dumped (json_dumps event)] ] in
  match dict_get event "Records" (JList []) with
  | Raise e => (opening, Raise e)
  | OK batch =>
      match iterate batch with
      | Raise e => (opening, Raise e)
      | OK records =>
          let '(lines, processed_records) := process_records 0 records [] in
          let response := make_response processed_records in
          ((opening ++ lines ++
            [info [Text "Lambda Response: "; Returned response]])%list,
           OK response)
      end
  end.

End Handler.

(** ** Vocabulary of the statements *)

(** The steps of the [while] loop as a relation: [run v i w j] when the loop
    entered with value [v] at index [i] leaves with value [w] at index [j],
    every step taken on a value of at least 1024. *)
Inductive run : json -> nat -> json -> nat -> Prop :=
| run_stop v i : run v i v i
| run_step v i v' w j :
    ge_1024 v = OK true ->
    truediv_1024 v = OK v' ->
    run v' (S i) w j ->
    run v i w j.

(** Whether rounding [p] to 53 bits carries into a 54th bit. *)
Definition carries (p : positive) : bool :=
  let d := Z.log2 (Zpos p) + 1 in
  (53 <? d) && (Zpos p / 2 ^ (d - 53) =? 2 ^ 53 - 1) && Z.testbit (Zpos p) (d - 54).

(** The exponent of the binary64 nearest to [p * 2^e]. *)
Definition rounded_exponent (p : positive) (e : Z) : Z :=
  Z.log2 (Zpos p) + 1 + e - 53 + (if carries p then 1 else 0).

(** The number of divisions the loop makes on a normal binary64 of exponent
    [e] when [room] units are ahead. *)
Fixpoint steps (room : nat) (e : Z) : nat :=
  match room with
  | O => O
  | S room' => if -42 <=? e then S (steps room' (e - 10)) else O
  end.

(** The index of the unit of a byte count. *)
Definition unit_index (x : Z) : nat := Z.to_nat (Z.min 4 (Z.log2 x / 10)).

(** The least byte count whose quotient by 1024 is not a binary64. *)
Definition overflow_threshold : Z := 2 ^ 1034 - 2 ^ 980.

(** The value found by following [path] through nested objects. *)
Fixpoint at_path (path : list string) (v : json) : option json :=
  match path with
  | [] => Some v
  | key :: rest =>
      match v with
      | JDict fields =>
          match lookup key fields with
          | Some v' => at_path rest v'
          | None => None
          end
      | _ => None
      end
  end.

Definition absent (path : list string) (record : json) : Prop :=
  at_path path record = None.

Definition field_or (path : list string) (default : json) (record : json) : json :=
  match at_path path record with
  | Some v => v
  | None => default
  end.

Definition is_dict (v : json) : bool :=
  match v with JDict _ => true | _ => false end.

Definition is_str (v : json) : bool :=
  match v with JStr _ => true | _ => false end.

(** A byte count: a non-negative integer whose quotient by 1024 is a
    binary64. *)
Definition is_byte_count (v : json) : bool :=
  match v with
  | JInt n => (0 <=? n) && (n <? overflow_threshold)
  | _ => false
  end.

Definition absent_or (p : json -> bool) (o : option json) : bool :=
  match o with
  | None => true
  | Some v => p v
  end.

(** A record has the shape of section 6 of the design when it is an object,
    each nested object that is present is an object, and the size, when
    present, is a byte count.  Every field may be absent. *)
Definition well_shaped (record : json) : bool :=
  is_dict record
  && absent_or is_dict (at_path ["s3"] record)
  && absent_or is_dict (at_path ["s3"; "bucket"] record)
  && absent_or is_dict (at_path ["s3"; "object"] record)
  && absent_or is_byte_count (at_path ["s3"; "object"; "size"] record)
  && absent_or is_dict (at_path ["requestParameters"] record)
  && absent_or is_dict (at_path ["userIdentity"] record).

(** A well-formed record is a well-shaped one whose key, when present, is a
    string. *)
Definition well_formed (record : json) : bool :=
  well_shaped record
  && absent_or is_str (at_path ["s3"; "object"; "key"] record).

(** The extension of a key that is a string. *)
Definition key_extension {U : unicode} (key : string) : string :=
  if has_char dot key then lower (last (split dot key) EmptyString)
  else "unknown".

Definition key_category {U : unicode} (key : json) : string :=
  match key with
  | JStr s => categorize_file (key_extension s)
  | _ => "other"
  end.

(** The entry a well-formed record is expected to contribute. *)
Definition entry_for {U : unicode} (record : json) : json :=
  let key := field_or ["s3"; "object"; "key"] (JStr "Unknown") record in
  JDict [("bucket", field_or ["s3"; "bucket"; "name"] (JStr "Unknown") record);
         ("key", key);
         ("category", JStr (key_category key))].

(** Values a [for] loop accepts. *)
Definition iterable (v : json) : bool :=
  match v with
  | JList _ | JStr _ | JDict _ => true
  | _ => false
  end.

(** An event the handler can walk: an object whose ["Records"], when
    present, is iterable. *)
Definition is_batch (event : json) : bool :=
  is_dict event && absent_or iterable (at_path ["Records"] event).

(** The response body, read back as a value. *)
Definition body_field (key : string) (r : response) : option json :=
  at_path [key] (payload (body r)).

(** The capital letters [A] to [Z]. *)
Definition is_capital (c : ascii) : bool :=
  let n := nat_of_ascii c in (Nat.leb 65 n && Nat.leb n 90)%bool.

Fixpoint has_capital (s : string) : bool :=
  match s with
  | EmptyString => false
  | String c rest => (is_capital c || has_capital rest)%bool
  end.

(** Two characters that are equal, or a capital letter and its small
    letter, 32 places further in the ASCII table. *)
Definition same_letter (a b : ascii) : bool :=
  (Ascii.eqb a b
   || (is_capital a && Nat.eqb (nat_of_ascii b) (nat_of_ascii a + 32))
   || (is_capital b && Nat.eqb (nat_of_ascii a) (nat_of_ascii b + 32)))%bool.

(** Two strings that differ in the case of their ASCII letters at most. *)
Fixpoint same_letters (s t : string) : bool :=
  match s, t with
  | EmptyString, EmptyString => true
  | String a s', String b t' => (same_letter a b && same_letters s' t')%bool
  | _, _ => false
  end.

(** The category check as the design words it: six tests in order on the
    lower-cased extension, the first that succeeds decides. *)
Definition categorize_spec {U : unicode} (extension : string) : string :=
  let x := lower extension in
  if mem x ["pdf"; "doc"; "docx"; "txt"; "rtf"; "odt"] then "resume"
  else if mem x ["jpg"; "jpeg"; "png"; "gif"; "webp"; "svg"; "bmp"; "ico"] then "image"
  else if mem x ["csv"; "xlsx"; "xls"; "json"; "xml"; "yaml"; "yml"] then "data"
  else if mem x ["zip"; "tar"; "gz"; "rar"; "7z"] then "archive"
  else if mem x ["mp4"; "avi"; "mov"; "mkv"; "webm"] then "video"
  else if mem x ["mp3"; "wav"; "flac"; "aac"; "ogg"] then "audio"
  else "other".

Definition default_environ : environ :=
  {| PROJECT_NAME := None; ENVIRONMENT := None |}.

(** A batch of three records: an empty record, a number, and a record
    whose size is a string. *)
Definition mixed_batch : json :=
  JDict [("Records",
          JList [JDict [];
                 JInt 4;
                 JDict [("s3", JDict [("object", JDict [("size", JStr "big")])])]])].

(** The sample event at the end of the source file. *)
Definition test_event : json :=
  JDict [("Records", JList [
    JDict [("eventTime", JStr "2024-12-01T12:00:00.000Z");
           ("eventName", JStr "ObjectCreated:Put");
           ("s3", JDict [("bucket", JDict [("name", JStr "job-portal-dev-files")]);
                         ("object", JDict [("key", JStr "resumes/john_doe_resume.pdf");
                                           ("size", JInt 1024567)])]);
           ("requestParameters", JDict [("sourceIPAddress", JStr "192.168.1.100")]);
           ("userIdentity", JDict [("principalId", JStr "EXAMPLE123")])]])].

(** What one record contributes to the response, apart from what is logged:
    the steps of the loop body that can raise, in the order of the source. *)
Definition record_entry {U : unicode} (record : json) : result json :=
  s3_info <- dict_get record "s3" (JDict []) ;;
  bucket_dict <- dict_get s3_info "bucket" (JDict []) ;;
  bucket_name <- dict_get bucket_dict "name" (JStr "Unknown") ;;
  object_dict <- dict_get s3_info "object" (JDict []) ;;
  key <- dict_get object_dict "key" (JStr "Unknown") ;;
  object_size <- dict_get object_dict "size" (JInt 0) ;;
  _ <- format_size object_size ;;
  request_parameters <- dict_get record "requestParameters" (JDict []) ;;
  _ <- dict_get request_parameters "sourceIPAddress" (JStr "Unknown") ;;
  identity <- dict_get record "userIdentity" (JDict []) ;;
  _ <- dict_get identity "principalId" (JStr "Unknown") ;;
  extension <- file_extension key ;;
  OK (processed_entry bucket_name key (categorize_file extension)).

(** The entries of the records of a batch that did not raise, in order. *)
Fixpoint kept {U : unicode} (records : list json) : list json :=
  match records with
  | [] => []
  | record :: rest =>
      match record_entry record with
      | OK entry => entry :: kept rest
      | Raise _ => kept rest
      end
  end.

(** ** Vocabulary of the further properties *)


(** Python numbers among the JSON values. *)
Definition is_number (v : json) : bool :=
  match v with
  | JInt _ | JBool _ | JFloat _ => true
  | _ => false
  end.

(** The text printed for a number of hundredths. *)
Definition hundredths_text (h : Z) : string :=
  (string_of_N (Z.to_N h / 100) ++ "." ++ two_digits (Z.to_N h mod 100))%N.

(** The hundredths of [x / 1024 ^ i], rounded to nearest even. *)
Definition scaled_hundredths (x : Z) (i : nat) : Z :=
  round_half_even (100 * x) (1024 ^ Z.of_nat i).

(** Whether the loop body raises on a record. *)
Definition raises {U : unicode} (record : json) : bool :=
  match snd (process_record default_environ EmptyString record) with
  | OK _ => false
  | Raise _ => true
  end.

Definition is_error_line (line : log_line) : bool :=
  match fst line with
  | ERROR => true
  | INFO => false
  end.

(** The number of ERROR lines of a log. *)
Definition errors_logged (lines : list log_line) : nat :=
  List.length (filter is_error_line lines).

(** A record that is not well formed and yet does not raise: the bucket
    name is a number, the key an array, the size a float. *)
Definition odd_record : json :=
  JDict [("s3", JDict [("bucket", JDict [("name", JInt 7)]);
                       ("object", JDict [("key", JList [JStr "a.pdf"]);
                                         ("size", JFloat (F64.of_Z 1536))])])].

(** A record whose size is the text of a number. *)
Definition text_size_record : json :=
  JDict [("s3", JDict [("object", JDict [("size", JStr "1024")])])].

(** A record whose key is a number. *)
Definition numeric_key_record : json :=
  JDict [("s3", JDict [("object", JDict [("key", JInt 42)])])].

(** [None], booleans and numbers: the values ['.' in] rejects. *)
Definition is_scalar_not_string (v : json) : bool :=
  match v with
  | JNull | JBool _ | JInt _ | JFloat _ => true
  | _ => false
  end.

(** Strings made of continuation bytes only. *)
Fixpoint all_continuation (s : string) : bool :=
  match s with
  | EmptyString => true
  | String c rest => (is_continuation c && all_continuation rest)%bool
  end.

(** One character: a byte that is not a continuation byte, then
    continuation bytes only. *)
Definition is_character (item : string) : bool :=
  match item with
  | EmptyString => false
  | String c rest => (negb (is_continuation c) && all_continuation rest)%bool
  end.

(** Whether a string starts in the middle of a character, which no [str]
    does. *)
Definition leading_continuation (s : string) : bool :=
  match s with
  | EmptyString => false
  | String c _ => is_continuation c
  end.

(** [''.join(items)] *)
Fixpoint join (items : list string) : string :=
  match items with
  | [] => EmptyString
  | item :: rest => item ++ join rest
  end.

(** What the [except] clause logs for an item that is a string. *)
Definition string_lines (item : string) : list log_line :=
  [ error [Text "Error processing record: "; Exception (AttributeError "str" "get")];
    error [Text "Record: "; Dumped (json_dumps (JStr item))] ].

(** A well-formed record whose key has an upper-case extension. *)
Definition upper_case_record : json :=
  JDict [("s3", JDict [("object", JDict [("key", JStr "cv/Jane.Doe.DOCX")])])].

(** * Properties *)

(** ** Rounding an integer to binary64 *)

Lemma digits2_pos_size p : digits2_pos p = Pos.size p.
Proof. induction p; simpl; congruence. Qed.

Lemma digits2_pos_log2 p : Zpos (digits2_pos p) = Z.log2 (Zpos p) + 1.
Proof.
  rewrite digits2_pos_size. destruct p; simpl; try reflexivity; lia.
Qed.

Lemma shr_1_m x : 0 <= shr_m x -> shr_m (shr_1 x) = Z.div2 (shr_m x).
Proof.
  destruct x as [m r s]; simpl; intros Hm.
  destruct m as [|[p|p|]|p]; simpl; try reflexivity; lia.
Qed.

Lemma shr_1_r x : 0 <= shr_m x -> shr_r (shr_1 x) = Z.odd (shr_m x).
Proof.
  destruct x as [m r s]; simpl; intros Hm.
  destruct m as [|[p|p|]|p]; simpl; try reflexivity; lia.
Qed.

Lemma iter_shr_1_m k : forall x, 0 <= shr_m x ->
  shr_m (iter_pos shr_1 k x) = shr_m x / 2 ^ Zpos k.
Proof.
  induction k as [k IH|k IH|]; intros x Hx; simpl iter_pos.
  - assert (H1 : 0 <= shr_m (shr_1 x)).
    { rewrite shr_1_m by assumption. rewrite Z.div2_div. apply Z.div_pos; lia. }
    assert (H2 : 0 <= shr_m (iter_pos shr_1 k (shr_1 x))).
    { rewrite IH by assumption. apply Z.div_pos; lia. }
    rewrite IH by assumption. rewrite IH by assumption.
    rewrite shr_1_m by assumption. rewrite Z.div2_div.
    rewrite !Z.div_div by lia.
    f_equal. replace (Z.pos k~1) with (1 + Zpos k + Zpos k) by lia.
    rewrite !Z.pow_add_r by lia. lia.
  - assert (H2 : 0 <= shr_m (iter_pos shr_1 k x)).
    { rewrite IH by assumption. apply Z.div_pos; lia. }
    rewrite IH by assumption. rewrite IH by assumption.
    rewrite !Z.div_div by lia.
    f_equal. replace (Z.pos k~0) with (Z.pos k + Z.pos k) by lia.
    rewrite Z.pow_add_r by lia. reflexivity.
  - rewrite shr_1_m by assumption. rewrite Z.div2_div. reflexivity.
Qed.

Lemma iter_shr_1_r k : forall x, 0 <= shr_m x ->
  shr_r (iter_pos shr_1 k x) = Z.testbit (shr_m x) (Zpos k - 1).
Proof.
  assert (Hdiv : forall m j, 0 <= m -> 0 <= m / 2 ^ Zpos j)
    by (intros; apply Z.div_pos; lia).
  induction k as [k IH|k IH|]; intros x Hx; simpl iter_pos.
  - assert (H1 : 0 <= shr_m (shr_1 x)).
    { rewrite shr_1_m by assumption. rewrite Z.div2_div. apply Z.div_pos; lia. }
    rewrite IH by (rewrite iter_shr_1_m by assumption; auto).
    rewrite iter_shr_1_m by assumption.
    rewrite shr_1_m by assumption. rewrite Z.div2_div.
    rewrite <- !Z.shiftr_div_pow2 by lia.
    change (shr_m x / 2) with (shr_m x / 2 ^ 1).
    rewrite <- !Z.shiftr_div_pow2 by lia.
    rewrite !Z.shiftr_spec by lia. f_equal. lia.
  - rewrite IH by (rewrite iter_shr_1_m by assumption; auto).
    rewrite iter_shr_1_m by assumption.
    rewrite <- !Z.shiftr_div_pow2 by lia.
    rewrite !Z.shiftr_spec by lia. f_equal. lia.
  - rewrite shr_1_r by assumption. rewrite <- Z.bit0_odd. reflexivity.
Qed.

Lemma digits_53_bounds m :
  Zpos (digits2_pos m) = 53 <-> 2 ^ 52 <= Zpos m < 2 ^ 53.
Proof.
  rewrite digits2_pos_log2.
  pose proof (Z.log2_spec (Zpos m) ltac:(lia)) as Hs.
  split.
  - intros H. replace (Z.log2 (Zpos m)) with 52 in Hs by lia.
    change (Z.succ 52) with 53 in Hs. exact Hs.
  - intros H. assert (Z.log2 (Zpos m) = 52); [|lia].
    apply Z.log2_unique; [lia|exact H].
Qed.

(** Rounding a 53-bit significand changes nothing. *)
Lemma round_aux_53 s m e :
  Zpos (digits2_pos m) = 53 -> -1074 <= e ->
  binary_round_aux F64.prec F64.emax s (Zpos m) e loc_Exact
  = if e <=? 971 then S754_finite s m e else S754_infinity s.
Proof.
  intros Hd He.
  unfold binary_round_aux, shr_fexp, fexp, emin, F64.prec, F64.emax.
  cbn [shr_record_of_loc Zdigits2]. rewrite Hd.
  replace (Z.max (53 + e - 53) (3 - 1024 - 53) - e) with 0 by lia.
  cbn [shr shr_m loc_of_shr_record round_nearest_even Zdigits2].
  rewrite Hd.
  replace (Z.max (53 + e - 53) (3 - 1024 - 53) - e) with 0 by lia.
  cbn [shr shr_m]. reflexivity.
Qed.

Lemma digits_iter_xO p k :
  Zpos (digits2_pos (Pos.iter xO p k)) = Zpos (digits2_pos p) + Zpos k.
Proof.
  induction k using Pos.peano_ind.
  - simpl. lia.
  - rewrite Pos.iter_succ. simpl digits2_pos. lia.
Qed.

Lemma round_nearest_even_step m r s :
  round_nearest_even m (loc_of_shr_record (Build_shr_record m r s))
  = if r && (s || Z.odd m) then m + 1 else m.
Proof.
  destruct r, s; simpl; try reflexivity.
  rewrite <- Z.negb_even. destruct (Z.even m); reflexivity.
Qed.

Lemma binary_round_normal p :
  exists m,
    Zpos (digits2_pos m) = 53 /\
    forall e, -1022 <= e ->
      binary_round F64.prec F64.emax false p e
      = if rounded_exponent p e <=? 971
        then S754_finite false m (rounded_exponent p e)
        else S754_infinity false.
Proof.
  pose proof (digits2_pos_log2 p) as Hd.
  pose proof (Z.log2_nonneg (Zpos p)) as Hl.
  unfold rounded_exponent, carries. set (d := Z.log2 (Zpos p) + 1) in *.
  assert (Hshift : forall e, -1022 <= e ->
            Z.max (d + e - 53) (3 - 1024 - 53) - e = d - 53) by (intros; lia).
  destruct (d - 53) as [|k|k] eqn:Hk.
  - (* exactly 53 bits *)
    exists p. split; [lia|]. intros e He.
    unfold binary_round, shl_align, fexp, emin, F64.prec, F64.emax.
    rewrite Hd, (Hshift e He).
    replace (53 <? d) with false by lia. cbn [andb].
    replace (d + e - 53 + 0) with e by lia.
    apply round_aux_53; lia.
  - (* more than 53 bits: the low [k] bits are rounded away *)
    replace (53 <? d) with true by lia. cbn [andb].
    set (x0 := {| shr_m := Zpos p; shr_r := false; shr_s := false |}).
    assert (Hx0 : 0 <= shr_m x0) by (simpl; lia).
    pose proof (iter_shr_1_m k x0 Hx0) as Hm.
    pose proof (iter_shr_1_r k x0 Hx0) as Hr.
    destruct (iter_pos shr_1 k x0) as [m1 r1 s1] eqn:Hiter.
    cbn [shr_m shr_r] in Hm, Hr. subst x0. cbn [shr_m] in Hm, Hr.
    replace (d - 54) with (Zpos k - 1) by lia. rewrite <- Hr, <- Hm.
    assert (Hm1 : 2 ^ 52 <= m1 < 2 ^ 53).
    { pose proof (Z.log2_spec (Zpos p) ltac:(lia)) as Hs.
      replace (Z.log2 (Zpos p)) with (52 + Zpos k) in Hs by lia.
      replace (Z.succ (52 + Zpos k)) with (53 + Zpos k) in Hs by lia.
      rewrite !Z.pow_add_r in Hs by lia.
      rewrite Hm. split.
      - apply Z.div_le_lower_bound; lia.
      - apply Z.div_lt_upper_bound; lia. }
    assert (Hunfold : forall e, -1022 <= e ->
              binary_round F64.prec F64.emax false p e
              = let m2 := if r1 && (s1 || Z.odd m1) then m1 + 1 else m1 in
                let '(mrs, e'') :=
                  shr {| shr_m := m2; shr_r := false; shr_s := false |}
                      (e + Zpos k)
                      (Z.max (Zdigits2 m2 + (e + Zpos k) - 53) (3 - 1024 - 53)
                       - (e + Zpos k)) in
                match shr_m mrs with
                | 0 => S754_zero false
                | Zpos m => if e'' <=? 1024 - 53 then S754_finite false m e''
                            else S754_infinity false
                | Zneg _ => S754_nan
                end).
    { intros e He.
      unfold binary_round, shl_align, fexp, emin, F64.prec, F64.emax.
      rewrite Hd, (Hshift e He).
      unfold binary_round_aux, shr_fexp, fexp, emin.
      cbn [shr_record_of_loc Zdigits2]. rewrite Hd, (Hshift e He).
      cbn [shr]. rewrite Hiter. cbn [shr_m].
      rewrite round_nearest_even_step. reflexivity. }
    destruct (r1 && (s1 || Z.odd m1)) eqn:Hup.
    + destruct (Z.eq_dec m1 (2 ^ 53 - 1)) as [Hcarry|Hno].
      * (* the carry: the significand becomes 2^53 *)
        exists (Z.to_pos (2 ^ 52)). split; [reflexivity|].
        intros e He. rewrite (Hunfold e He). cbv zeta.
        rewrite Hcarry. apply andb_prop in Hup. destruct Hup as [-> _].
        rewrite Z.eqb_refl. cbn [andb].
        change (2 ^ 53 - 1 + 1) with 9007199254740992.
        change (Zdigits2 9007199254740992) with 54.
        replace (Z.max (54 + (e + Zpos k) - 53) (3 - 1024 - 53) - (e + Zpos k))
          with 1 by lia.
        cbn [shr iter_pos shr_1 shr_m orb].
        replace (d + e - 53 + 1) with (e + Zpos k + 1) by lia.
        reflexivity.
      * assert (Hm2 : 2 ^ 52 <= m1 + 1 < 2 ^ 53) by lia.
        destruct (m1 + 1) as [|m2|m2] eqn:Em2; try lia.
        exists m2.
        apply digits_53_bounds in Hm2. split; [exact Hm2|].
        intros e He. rewrite (Hunfold e He). cbv zeta.
        replace (m1 =? 2 ^ 53 - 1) with false by lia. cbn [andb].
        cbn [Zdigits2]. rewrite Hm2.
        replace (Z.max (53 + (e + Zpos k) - 53) (3 - 1024 - 53) - (e + Zpos k))
          with 0 by lia.
        cbn [shr shr_m].
        replace (d + e - 53 + 0) with (e + Zpos k) by lia.
        reflexivity.
    + destruct m1 as [|m2|m2] eqn:Em1; try lia.
      exists m2.
      assert (Hc : (Zpos m2 =? 2 ^ 53 - 1) && r1 = false).
      { destruct (Zpos m2 =? 2 ^ 53 - 1) eqn:E; [|reflexivity].
        apply Z.eqb_eq in E. rewrite E in Hup. cbn in Hup.
        rewrite orb_true_r in Hup. rewrite andb_true_r in Hup.
        rewrite Hup. reflexivity. }
      rewrite Hc.
      apply digits_53_bounds in Hm1. split; [exact Hm1|].
      intros e He. rewrite (Hunfold e He). cbv zeta.
      cbn [Zdigits2]. rewrite Hm1.
      replace (Z.max (53 + (e + Zpos k) - 53) (3 - 1024 - 53) - (e + Zpos k))
        with 0 by lia.
      cbn [shr shr_m].
      replace (d + e - 53 + 0) with (e + Zpos k) by lia.
      reflexivity.
  - (* fewer than 53 bits: the significand is padded *)
    replace (53 <? d) with false by lia. cbn [andb].
    exists (Pos.iter xO p k).
    pose proof (digits_iter_xO p k) as Hi.
    assert (Hd53 : Zpos (digits2_pos (Pos.iter xO p k)) = 53) by lia.
    split; [exact Hd53|]. intros e He.
    unfold binary_round, shl_align, fexp, emin, F64.prec, F64.emax.
    rewrite Hd, (Hshift e He).
    replace (Z.max (d + e - 53) (3 - 1024 - 53)) with (d + e - 53 + 0) by lia.
    apply round_aux_53; lia.
Qed.

(** Dividing a normal binary64 by 1024 lowers its exponent by ten. *)
Lemma div_1024_exact m e :
  Zpos (digits2_pos m) = 53 -> -1063 <= e <= 981 ->
  F64.div (S754_finite false m e) F64.f1024 = S754_finite false m (e - 10).
Proof.
  intros Hd He.
  unfold F64.div, F64.f1024, SFdiv, SFdiv_core_binary, F64.prec, F64.emax.
  cbn [Zdigits2 xorb]. rewrite Hd.
  change (Zpos (digits2_pos 4503599627370496)) with 53.
  unfold fexp, emin.
  replace (Z.min (Z.max (53 + e - (53 + -42) - 53) (3 - 1024 - 53)) (e - -42))
    with (e - 11) by lia.
  replace (e - -42 - (e - 11)) with 53 by lia.
  assert (Hq : Z.div_eucl (Z.shiftl (Zpos m) 53) 4503599627370496
               = (Zpos m~0, 0)).
  { pose proof (Z.div_eucl_eq (Z.shiftl (Zpos m) 53) 4503599627370496 ltac:(lia)) as E.
    pose proof (Z.mod_pos_bound (Z.shiftl (Zpos m) 53) 4503599627370496 ltac:(lia)) as B.
    unfold Z.modulo in B.
    destruct (Z.div_eucl (Z.shiftl (Zpos m) 53) 4503599627370496) as [q r].
    rewrite Z.shiftl_mul_pow2 in E by lia.
    change (2 ^ 53) with 9007199254740992 in E.
    f_equal; lia. }
  rewrite Hq.
  change (new_location 4503599627370496 0) with loc_Exact.
  unfold binary_round_aux, shr_fexp, fexp, emin.
  cbn [shr_record_of_loc Zdigits2 digits2_pos].
  rewrite Pos2Z.inj_succ, Hd.
  replace (Z.max (Z.succ 53 + (e - 11) - 53) (3 - 1024 - 53) - (e - 11))
    with 1 by lia.
  cbn [shr iter_pos shr_1 shr_m orb loc_of_shr_record round_nearest_even Zdigits2].
  rewrite Hd.
  replace (Z.max (53 + (e - 11 + 1) - 53) (3 - 1024 - 53) - (e - 11 + 1))
    with 0 by lia.
  cbn [shr shr_m].
  replace (e - 11 + 1) with (e - 10) by lia.
  replace (e - 10 <=? 1024 - 53) with true by lia. reflexivity.
Qed.


(** A normal binary64 is at least 1024 when its exponent is at least -42. *)
Lemma ge_1024_normal m e :
  Zpos (digits2_pos m) = 53 ->
  SFleb F64.f1024 (S754_finite false m e) = (-42 <=? e).
Proof.
  intros Hd. apply digits_53_bounds in Hd.
  change (2 ^ 52) with (Zpos 4503599627370496) in Hd.
  unfold SFleb, SFcompare, F64.f1024.
  destruct (Z.compare_spec (-42) e) as [Heq|Hlt|Hgt].
  - rewrite Pos.compare_cont_spec. cbn [Pos.switch_Eq].
    destruct (Pos.compare_spec 4503599627370496 m) as [E|E|E].
    + subst e. reflexivity.
    + subst e. reflexivity.
    + exfalso. destruct Hd as [Hd _].
      apply (Z.lt_irrefl (Zpos m)). apply (Z.lt_le_trans _ (Zpos 4503599627370496));
        [apply Pos2Z.pos_lt_pos; exact E|exact Hd].
  - symmetry. apply Z.leb_le. lia.
  - symmetry. apply Z.leb_gt. lia.
Qed.

Lemma of_scaled_pos p :
  exists m,
    Zpos (digits2_pos m) = 53 /\
    forall e, -1022 <= e ->
      F64.of_scaled (Zpos p) e
      = if rounded_exponent p e <=? 971
        then S754_finite false m (rounded_exponent p e)
        else S754_infinity false.
Proof. exact (binary_round_normal p). Qed.

Lemma carries_at_1034 x :
  2 ^ 1033 <= x < 2 ^ 1034 ->
  (x / 2 ^ 981 =? 2 ^ 53 - 1) && Z.testbit x 980 = true
  <-> overflow_threshold <= x.
Proof.
  intros Hx. unfold overflow_threshold.
  rewrite andb_true_iff, Z.eqb_eq, Z.testbit_true by lia.
  assert (P0 : 0 < 2 ^ 980) by lia.
  assert (P1 : 2 ^ 981 = 2 ^ 980 * 2)
    by (vm_compute; reflexivity).
  assert (P2 : 2 ^ 1034 = 2 ^ 980 * 2 ^ 54)
    by (vm_compute; reflexivity).
  assert (P3 : 2 ^ 1033 = 2 ^ 980 * 2 ^ 53)
    by (vm_compute; reflexivity).
  rewrite P1, P2 in *. rewrite P3 in Hx. rewrite <- Z.div_div by lia.
  set (A := 2 ^ 980) in *. set (q := x / A).
  assert (Hq1 : 2 ^ 53 <= q) by (apply Z.div_le_lower_bound; lia).
  assert (Hq2 : q < 2 ^ 54) by (apply Z.div_lt_upper_bound; lia).
  assert (Hq3 : A * (2 ^ 54 - 1) <= x <-> 2 ^ 54 - 1 <= q).
  { split; intros H.
    - apply Z.div_le_lower_bound; lia.
    - pose proof (Z.mul_div_le x A P0) as H1. fold q in H1. nia. }
  replace (A * 2 ^ 54 - A) with (A * (2 ^ 54 - 1)) by lia.
  rewrite Hq3.
  pose proof (Z.div_mod q 2 ltac:(lia)) as E3.
  pose proof (Z.mod_pos_bound q 2 ltac:(lia)) as B3.
  change (2 ^ 53) with 9007199254740992 in *.
  change (2 ^ 54) with 18014398509481984 in *.
  lia.
Qed.

Lemma rounded_exponent_in_range p :
  Zpos p < overflow_threshold -> rounded_exponent p (-10) <= 971.
Proof.
  intros Hx. unfold rounded_exponent.
  destruct (Z_lt_le_dec (Zpos p) (2 ^ 1033)) as [Hs|Hs].
  - apply Z.log2_lt_pow2 in Hs; [|lia]. destruct (carries p); lia.
  - assert (Hl : Z.log2 (Zpos p) = 1033).
    { apply Z.log2_unique; [lia|]. unfold overflow_threshold in Hx.
      change (Z.succ 1033) with 1034. split; [exact Hs|].
      assert (0 < 2 ^ 980) by lia. lia. }
    unfold carries. rewrite Hl.
    replace (53 <? 1033 + 1) with true by reflexivity. cbn [andb].
    change (1033 + 1 - 53) with 981. change (1033 + 1 - 54) with 980.
    destruct ((Zpos p / 2 ^ 981 =? 2 ^ 53 - 1) && Z.testbit (Zpos p) 980) eqn:Ec.
    + apply carries_at_1034 in Ec; [lia|]. unfold overflow_threshold in Hx.
      assert (0 < 2 ^ 980) by lia. lia.
    + lia.
Qed.

Lemma rounded_exponent_overflow p :
  overflow_threshold <= Zpos p -> 971 < rounded_exponent p (-10).
Proof.
  intros Hx. unfold rounded_exponent.
  assert (Ht : 2 ^ 1033 <= overflow_threshold) by (vm_compute; discriminate).
  destruct (Z_lt_le_dec (Zpos p) (2 ^ 1034)) as [Hs|Hs].
  - assert (Hl : Z.log2 (Zpos p) = 1033).
    { apply Z.log2_unique; [lia|]. change (Z.succ 1033) with 1034. lia. }
    unfold carries. rewrite Hl.
    replace (53 <? 1033 + 1) with true by reflexivity. cbn [andb].
    change (1033 + 1 - 53) with 981. change (1033 + 1 - 54) with 980.
    replace ((Zpos p / 2 ^ 981 =? 2 ^ 53 - 1) && Z.testbit (Zpos p) 980) with true.
    + lia.
    + symmetry. apply carries_at_1034; lia.
  - apply Z.log2_le_pow2 in Hs; [|lia]. destruct (carries p); lia.
Qed.

(** ** The loop of [format_size] *)

Lemma advance_run room :
  forall v i w j,
    advance room v i = OK (w, j) ->
    run v i w j /\ (j <= i + room)%nat /\
    (ge_1024 w = OK false \/ j = (i + room)%nat).
Proof.
  induction room as [|room IH]; intros v i w j H; simpl in H.
  - destruct (ge_1024 v) as [big|e] eqn:Hge; simpl in H; [|discriminate].
    injection H as <- <-.
    split; [constructor|]. split; [lia|]. right. lia.
  - destruct (ge_1024 v) as [big|e] eqn:Hge; simpl in H; [|discriminate].
    destruct big.
    + destruct (truediv_1024 v) as [v'|e] eqn:Hdiv; simpl in H; [|discriminate].
      apply IH in H. destruct H as (Hrun & Hj & Hstop).
      split; [eapply run_step; eassumption|].
      split; [lia|]. destruct Hstop as [Hstop|Hstop]; [left; exact Hstop|right; lia].
    + injection H as <- <-.
      split; [constructor|]. split; [lia|]. left. exact Hge.
Qed.

Lemma advance_normal room :
  forall m e i,
    Zpos (digits2_pos m) = 53 -> e <= 981 ->
    advance room (JFloat (S754_finite false m e)) i
    = OK (JFloat (S754_finite false m (e - 10 * Z.of_nat (steps room e))),
          (i + steps room e)%nat).
Proof.
  induction room as [|room IH]; intros m e i Hd He; cbn [advance ge_1024 bind steps].
  - rewrite Z.sub_0_r, Nat.add_0_r. reflexivity.
  - rewrite (ge_1024_normal m e Hd).
    destruct (-42 <=? e) eqn:Hge.
    + apply Z.leb_le in Hge. cbn [truediv_1024 bind].
      rewrite (div_1024_exact m e Hd) by lia.
      rewrite (IH m (e - 10) (S i) Hd) by lia.
      replace (e - 10 * Z.of_nat (S (steps room (e - 10))))
        with (e - 10 - 10 * Z.of_nat (steps room (e - 10))) by lia.
      replace (i + S (steps room (e - 10)))%nat
        with (S i + steps room (e - 10))%nat by lia.
      reflexivity.
    + rewrite Z.sub_0_r, Nat.add_0_r. reflexivity.
Qed.

Lemma unit_index_steps p :
  1024 <= Zpos p ->
  unit_index (Zpos p) = S (steps 3 (rounded_exponent p (-10))).
Proof.
  intros Hx. unfold unit_index, rounded_exponent.
  assert (HL : 10 <= Z.log2 (Zpos p)) by (apply Z.log2_le_pow2; [lia|exact Hx]).
  assert (Hc : carries p = true -> 53 <= Z.log2 (Zpos p)).
  { unfold carries. intros H. apply andb_prop in H. destruct H as [H _].
    apply andb_prop in H. destruct H as [H _]. lia. }
  set (L := Z.log2 (Zpos p)) in *.
  pose proof (Z.div_mod L 10 ltac:(lia)) as Hdm.
  pose proof (Z.mod_pos_bound L 10 ltac:(lia)) as Hmb.
  set (q := L / 10) in *. clearbody q.
  cbn [steps].
  destruct (carries p);
    [specialize (Hc eq_refl)|clear Hc];
    repeat match goal with
           | |- context [?a <=? ?b] => destruct (Z.leb_spec a b)
           end;
    try lia;
    match goal with
    | |- Z.to_nat (Z.min 4 q) = ?n =>
        replace (Z.min 4 q) with (Z.of_nat n) by lia; apply Nat2Z.id
    end.
Qed.

Lemma unit_index_le x : (unit_index x <= 4)%nat.
Proof. unfold unit_index. lia. Qed.

Lemma unit_index_small x : 0 < x < 1024 -> unit_index x = 0%nat.
Proof.
  intros Hx. unfold unit_index.
  assert (Z.log2 x < 10) by (apply Z.log2_lt_pow2; lia).
  pose proof (Z.log2_nonneg x).
  rewrite Z.div_small by lia. reflexivity.
Qed.

Lemma advance_step room v i :
  advance (S room) v i
  = (big <- ge_1024 v ;;
     if big then v' <- truediv_1024 v ;; advance room v' (S i) else OK (v, i)).
Proof. reflexivity. Qed.

(** On a byte count in range the loop stops at [unit_index x], on the
    binary64 nearest to [x / 1024 ^ unit_index x]. *)
Lemma advance_byte_count x :
  0 < x < overflow_threshold ->
  exists v,
    advance 4 (JInt x) 0 = OK (v, unit_index x) /\
    format_value_2f v
    = OK (format_2f (F64.of_scaled x (- (10 * Z.of_nat (unit_index x))))) /\
    exists m e,
      F64.of_scaled x (- (10 * Z.of_nat (unit_index x))) = S754_finite false m e.
Proof.
  intros [H0 Hx]. destruct x as [|p|p]; try lia.
  destruct (of_scaled_pos p) as (m & Hd & Hof).
  rewrite advance_step. cbn [ge_1024 bind].
  destruct (1024 <=? Zpos p) eqn:Hbig.
  - apply Z.leb_le in Hbig.
    pose proof (rounded_exponent_in_range p Hx) as Hre.
    cbn [truediv_1024]. unfold float_of_scaled. cbn [Z.opp].
    rewrite (Hof (-10)) by lia.
    replace (rounded_exponent p (-10) <=? 971) with true by lia.
    cbn [F64.is_infinity bind].
    rewrite (advance_normal 3 m _ 1 Hd) by lia.
    rewrite (unit_index_steps p Hbig).
    set (j := steps 3 (rounded_exponent p (-10))).
    assert (Hj : (j <= 3)%nat).
    { pose proof (unit_index_le (Zpos p)) as Hle.
      rewrite (unit_index_steps p Hbig) in Hle. fold j in Hle. lia. }
    eexists. split; [reflexivity|].
    cbn [format_value_2f]. rewrite Hof by lia.
    assert (Hexp : rounded_exponent p (- (10 * Z.of_nat (S j)))
                   = rounded_exponent p (-10) - 10 * Z.of_nat j).
    { unfold rounded_exponent. lia. }
    rewrite Hexp.
    replace (rounded_exponent p (-10) - 10 * Z.of_nat j <=? 971) with true by lia.
    split; [reflexivity|eauto].
  - apply Z.leb_gt in Hbig.
    rewrite (unit_index_small (Zpos p)) by lia.
    exists (JInt (Zpos p)). split; [reflexivity|].
    cbn [format_value_2f]. unfold float_of_scaled.
    change (- (10 * Z.of_nat 0)) with 0. cbn [Z.opp].
    rewrite (Hof 0) by lia.
    assert (Hre : rounded_exponent p 0 <= 971).
    { unfold rounded_exponent.
      assert (Z.log2 (Zpos p) < 10) by (apply Z.log2_lt_pow2; lia).
      destruct (carries p); lia. }
    replace (rounded_exponent p 0 <=? 971) with true by lia.
    split; [reflexivity|eauto].
Qed.

Lemma index_name_unit x :
  index_name (unit_index x) = OK (nth (unit_index x) size_names EmptyString) /\
  In (nth (unit_index x) size_names EmptyString) size_names.
Proof.
  pose proof (unit_index_le x) as Hle. unfold index_name.
  destruct (unit_index x) as [|[|[|[|[|i]]]]]; try lia; simpl; auto 10.
Qed.

(** [format_size] on a byte count in range, in closed form. *)
Lemma format_size_closed_form x :
  0 < x < overflow_threshold ->
  format_size (JInt x)
  = OK (format_2f (F64.of_scaled x (- (10 * Z.of_nat (unit_index x))))
        ++ " " ++ nth (unit_index x) size_names EmptyString).
Proof.
  intros Hx. destruct (advance_byte_count x Hx) as (v & Hadv & Hfmt & _).
  unfold format_size. cbn [eq_zero]. replace (x =? 0) with false by lia.
  change (List.length size_names - 1)%nat with 4%nat.
  rewrite Hadv. cbn [bind]. rewrite Hfmt. cbn [bind].
  destruct (index_name_unit x) as [-> _]. reflexivity.
Qed.

Lemma format_size_byte_count x :
  0 <= x < overflow_threshold -> exists s, format_size (JInt x) = OK s.
Proof.
  intros Hx. destruct (Z.eq_dec x 0) as [->|Hnz]; [exists "0 B"; reflexivity|].
  rewrite format_size_closed_form by lia. eauto.
Qed.

Lemma format_size_overflow x :
  overflow_threshold <= x ->
  format_size (JInt x)
  = Raise (OverflowError "integer division result too large for a float").
Proof.
  intros Hx.
  assert (Ht : 1024 <= overflow_threshold) by (vm_compute; discriminate).
  destruct x as [|p|p]; try lia.
  destruct (of_scaled_pos p) as (m & _ & Hof).
  pose proof (rounded_exponent_overflow p Hx) as Hre.
  unfold format_size. cbn [eq_zero Z.eqb].
  change (List.length size_names - 1)%nat with 4%nat.
  rewrite advance_step. cbn [ge_1024 bind].
  replace (1024 <=? Zpos p) with true by lia.
  cbn [truediv_1024]. unfold float_of_scaled. cbn [Z.opp].
  rewrite (Hof (-10)) by lia.
  replace (rounded_exponent p (-10) <=? 971) with false by lia.
  reflexivity.
Qed.

(** ** The printed form *)

Lemma append_assoc (a b c : string) : (a ++ b) ++ c = a ++ (b ++ c).
Proof.
  induction a as [|x a IH]; simpl; [reflexivity|].
  rewrite IH. reflexivity.
Qed.

Lemma digit_string k :
  (k < 10)%N -> exists d, string_of_N k = String d EmptyString /\ is_digit d = true.
Proof.
  intros Hk.
  assert (H : (k = 0 \/ k = 1 \/ k = 2 \/ k = 3 \/ k = 4 \/
               k = 5 \/ k = 6 \/ k = 7 \/ k = 8 \/ k = 9)%N) by lia.
  repeat (destruct H as [->|H]; [eexists; split; reflexivity|]).
  subst k. eexists; split; reflexivity.
Qed.

Lemma two_digits_shape n :
  (n < 100)%N ->
  exists d1 d2,
    two_digits n = String d1 (String d2 EmptyString) /\
    is_digit d1 = true /\ is_digit d2 = true.
Proof.
  intros Hn. unfold two_digits.
  destruct (digit_string (n / 10)) as (d1 & -> & H1).
  { apply N.Div0.div_lt_upper_bound. lia. }
  destruct (digit_string (n mod 10)) as (d2 & -> & H2).
  { apply N.mod_lt. discriminate. }
  exists d1, d2. auto.
Qed.

(** A finite float is printed as a sign, an integer part, a point and two
    decimals. *)
Lemma format_2f_shape s m e :
  exists whole d1 d2,
    format_2f (S754_finite s m e)
    = sign_string s ++ whole ++ "." ++ String d1 (String d2 EmptyString) /\
    is_digit d1 = true /\ is_digit d2 = true.
Proof.
  cbn [format_2f].
  destruct (two_digits_shape (Z.to_N (hundredths m e) mod 100)) as (d1 & d2 & -> & H).
  { apply N.mod_lt. discriminate. }
  eauto.
Qed.

(** On a byte count in range: the value on two decimals, a space, the
    unit. *)
Lemma format_size_shape x :
  0 < x < overflow_threshold ->
  exists whole d1 d2 unit,
    format_size (JInt x)
    = OK (whole ++ "." ++ String d1 (String d2 EmptyString) ++ " " ++ unit) /\
    is_digit d1 = true /\ is_digit d2 = true /\
    In unit ["B"; "KB"; "MB"; "GB"; "TB"].
Proof.
  intros Hx. rewrite (format_size_closed_form x Hx).
  destruct (advance_byte_count x Hx) as (_ & _ & _ & m & e & ->).
  destruct (format_2f_shape false m e) as (whole & d1 & d2 & -> & H1 & H2).
  exists whole, d1, d2, (nth (unit_index x) size_names EmptyString).
  split.
  - cbn [sign_string]. f_equal.
    change ("" ++ whole ++ "." ++ String d1 (String d2 ""))
      with (whole ++ "." ++ String d1 (String d2 "")).
    rewrite append_assoc. reflexivity.
  - split; [exact H1|]. split; [exact H2|]. apply index_name_unit.
Qed.

(** ** [format_size]: the examples of the design *)

(** C3, as stated, fails: the third example of the design is formatted in
    KB, since one division by 1024 already brings 1024567 below 1024. *)
Lemma format_size_1024567_not_MB :
  format_size (JInt 1024567) = OK "1000.55 KB" /\
  format_size (JInt 1024567) <> OK "0.98 MB".
Proof.
  split; [vm_compute; reflexivity|vm_compute; discriminate].
Qed.

(** C3, amended: [format_size] returns "0 B" for 0, "1.00 KB" for 1024,
    "1.00 MB" for 1048576 and "1000.55 KB" for 1024567; for a byte count
    other than 0 the result is the value on exactly two decimals, a space
    and the unit. *)
Theorem format_size_examples :
  format_size (JInt 0) = OK "0 B" /\
  format_size (JInt 1024) = OK "1.00 KB" /\
  format_size (JInt 1048576) = OK "1.00 MB" /\
  format_size (JInt 1024567) = OK "1000.55 KB" /\
  (forall x,
     0 < x < overflow_threshold ->
     exists whole d1 d2 unit,
       format_size (JInt x)
       = OK (whole ++ "." ++ String d1 (String d2 EmptyString) ++ " " ++ unit) /\
       is_digit d1 = true /\ is_digit d2 = true /\
       In unit ["B"; "KB"; "MB"; "GB"; "TB"]).
Proof.
  split; [vm_compute; reflexivity|].
  split; [vm_compute; reflexivity|].
  split; [vm_compute; reflexivity|].
  split; [vm_compute; reflexivity|].
  exact format_size_shape.
Qed.

(** Further values: ties go to the even hundredth, an integer beyond 2^53
    is rounded once, and values that are not byte counts follow Python. *)
Lemma format_size_more_examples :
  format_size (JInt 1) = OK "1.00 B" /\
  format_size (JInt 1023) = OK "1023.00 B" /\
  format_size (JInt 1152) = OK "1.12 KB" /\
  format_size (JInt 1408) = OK "1.38 KB" /\
  format_size (JInt 1536) = OK "1.50 KB" /\
  format_size (JInt 1234567890) = OK "1.15 GB" /\
  format_size (JInt (1024 ^ 4)) = OK "1.00 TB" /\
  format_size (JInt (2 ^ 53 + 1)) = OK "8192.00 TB" /\
  format_size (JInt (-5)) = OK "-5.00 B" /\
  format_size (JBool true) = OK "1.00 B" /\
  format_size (JBool false) = OK "0 B" /\
  format_size (JFloat (F64.of_Z 1536)) = OK "1.50 KB" /\
  format_size (JFloat S754_nan) = OK "nan B" /\
  format_size (JFloat (S754_infinity false)) = OK "inf TB" /\
  format_size (JStr "10")
  = Raise (TypeError "'>=' not supported between instances of 'str' and 'int'") /\
  format_size JNull
  = Raise (TypeError "'>=' not supported between instances of 'NoneType' and 'int'").
Proof.
  repeat split; vm_compute; reflexivity.
Qed.

(** ** [format_size]: the units *)

(** C4, as stated, fails for byte counts beyond the binary64 range: the
    first division raises and no unit is emitted. *)
Lemma format_size_2_1034_raises :
  format_size (JInt (2 ^ 1034))
  = Raise (OverflowError "integer division result too large for a float") /\
  ~ (exists s, format_size (JInt (2 ^ 1034)) = OK s).
Proof.
  assert (H : format_size (JInt (2 ^ 1034))
              = Raise (OverflowError "integer division result too large for a float"))
    by (vm_compute; reflexivity).
  split; [exact H|]. intros [s Hs]. rewrite H in Hs. discriminate.
Qed.

(** C4, amended: for every byte count [x] with [0 < x < 2^1034 - 2^980]
    the loop divides by 1024 while it advances through B, KB, MB, GB, TB,
    each step taken on a value of at least 1024, and stops as soon as the
    value is below 1024 or the index is that of TB.  The index reached is
    [min 4 (log2 x / 10)], so the unit is one of the five and never past
    TB, and the value printed is the binary64 nearest to [x] divided by
    [1024] that many times.  From [2^1034 - 2^980] on, the first division
    raises [OverflowError]. *)
Theorem format_size_units (x : Z) (Hx : 0 < x) :
  if x <? overflow_threshold
  then exists v,
         run (JInt x) 0 v (unit_index x) /\
         (unit_index x <= 4)%nat /\
         (ge_1024 v = OK false \/ unit_index x = 4%nat) /\
         In (nth (unit_index x) size_names EmptyString)
            ["B"; "KB"; "MB"; "GB"; "TB"] /\
         format_size (JInt x)
         = OK (format_2f (F64.of_scaled x (- (10 * Z.of_nat (unit_index x))))
               ++ " " ++ nth (unit_index x) size_names EmptyString)
  else format_size (JInt x)
       = Raise (OverflowError "integer division result too large for a float").
Proof.
  destruct (x <? overflow_threshold) eqn:Hlt;
    [apply Z.ltb_lt in Hlt|apply Z.ltb_ge in Hlt; apply format_size_overflow; exact Hlt].
  destruct (advance_byte_count x (conj Hx Hlt)) as (v & Hadv & _).
  pose proof (advance_run _ _ _ _ _ Hadv) as (Hrun & Hj & Hstop).
  exists v.
  split; [exact Hrun|]. split; [apply unit_index_le|].
  split; [destruct Hstop as [Hs|Hs]; [left; exact Hs|right; lia]|].
  split; [apply index_name_unit|].
  apply format_size_closed_form. split; assumption.
Qed.

(** At [1024^5] the loop has used its four divisions and reports in TB. *)
Lemma format_size_units_witness :
  0 < 1024 ^ 5 /\
  unit_index (1024 ^ 5) = 4%nat /\
  (exists v,
     run (JInt (1024 ^ 5)) 0 v 4 /\
     (4 <= 4)%nat /\
     (ge_1024 v = OK false \/ 4%nat = 4%nat) /\
     In "TB" ["B"; "KB"; "MB"; "GB"; "TB"] /\
     format_size (JInt (1024 ^ 5)) = OK "1024.00 TB").
Proof.
  split; [reflexivity|]. split; [reflexivity|].
  exact (format_size_units (1024 ^ 5) eq_refl).
Defined.

(** The unit by ranges of the byte count. *)
Lemma unit_index_ranges x :
  0 < x ->
  (x < 1024 -> unit_index x = 0%nat) /\
  (1024 <= x < 1024 ^ 2 -> unit_index x = 1%nat) /\
  (1024 ^ 2 <= x < 1024 ^ 3 -> unit_index x = 2%nat) /\
  (1024 ^ 3 <= x < 1024 ^ 4 -> unit_index x = 3%nat) /\
  (1024 ^ 4 <= x -> unit_index x = 4%nat).
Proof.
  intros Hx. unfold unit_index.
  change (1024 ^ 2) with (2 ^ 20). change (1024 ^ 3) with (2 ^ 30).
  change (1024 ^ 4) with (2 ^ 40). change 1024 with (2 ^ 10).
  pose proof (Z.div_mod (Z.log2 x) 10 ltac:(lia)) as Hdm.
  pose proof (Z.mod_pos_bound (Z.log2 x) 10 ltac:(lia)) as Hmb.
  pose proof (Z.log2_nonneg x) as Hnn.
  repeat split; intros H;
    repeat match goal with
           | H : _ /\ _ |- _ => destruct H
           | H : 2 ^ _ <= x |- _ => apply Z.log2_le_pow2 in H; [|lia]
           | H : x < 2 ^ _ |- _ => apply Z.log2_lt_pow2 in H; [|lia]
           end;
    match goal with
    | |- Z.to_nat (Z.min 4 ?q) = ?n =>
        replace (Z.min 4 q) with (Z.of_nat n) by lia; apply Nat2Z.id
    end.
Qed.

(** ** Lower case *)

Lemma lower_ascii_small c : is_capital (lower_ascii c) = false.
Proof. destruct c as [[] [] [] [] [] [] [] []]; reflexivity. Qed.

Lemma ascii_lower_small s : has_capital (ascii_lower s) = false.
Proof.
  induction s as [|c s IH]; [reflexivity|].
  cbn [ascii_lower has_capital]. rewrite lower_ascii_small, IH. reflexivity.
Qed.

Lemma same_letter_lower_ascii c : same_letter c (lower_ascii c) = true.
Proof. destruct c as [[] [] [] [] [] [] [] []]; reflexivity. Qed.

Lemma same_letters_ascii_lower s : same_letters s (ascii_lower s) = true.
Proof.
  induction s as [|c s IH]; [reflexivity|].
  cbn [ascii_lower same_letters]. rewrite same_letter_lower_ascii, IH. reflexivity.
Qed.

Lemma capital_lower_ascii a b :
  is_capital a = true -> nat_of_ascii b = (nat_of_ascii a + 32)%nat ->
  lower_ascii a = b /\ lower_ascii b = b.
Proof.
  unfold is_capital, lower_ascii. intros Ha Hb. cbv zeta in *. rewrite Ha, Hb.
  apply andb_prop in Ha. destruct Ha as [Hlo%Nat.leb_le Hhi%Nat.leb_le].
  rewrite <- Hb, ascii_nat_embedding. rewrite Hb.
  replace (Nat.leb (nat_of_ascii a + 32) 90) with false
    by (symmetry; apply Nat.leb_gt; lia).
  rewrite andb_false_r. split; reflexivity.
Qed.

Lemma same_letter_lower a b :
  same_letter a b = true -> lower_ascii a = lower_ascii b.
Proof.
  unfold same_letter. intros H.
  apply orb_prop in H. destruct H as [H|H]; [apply orb_prop in H; destruct H as [H|H]|].
  - apply Ascii.eqb_eq in H. subst. reflexivity.
  - apply andb_prop in H. destruct H as [Ha Hb%Nat.eqb_eq].
    destruct (capital_lower_ascii a b Ha Hb) as [-> ->]. reflexivity.
  - apply andb_prop in H. destruct H as [Hb Ha%Nat.eqb_eq].
    destruct (capital_lower_ascii b a Hb Ha) as [-> ->]. reflexivity.
Qed.

Lemma same_letters_lower s :
  forall t, same_letters s t = true -> ascii_lower s = ascii_lower t.
Proof.
  induction s as [|a s IH]; intros [|b t]; try discriminate; [reflexivity|].
  cbn [same_letters ascii_lower]. intros H.
  apply andb_prop in H. destruct H as [Hc Hs].
  rewrite (same_letter_lower a b Hc), (IH t Hs). reflexivity.
Qed.

Lemma same_letter_ascii a b :
  is_ascii_char a = true -> same_letter a b = true -> is_ascii_char b = true.
Proof.
  unfold is_ascii_char, same_letter, is_capital. intros Ha H.
  apply Nat.ltb_lt in Ha. apply Nat.ltb_lt.
  apply orb_prop in H. destruct H as [H|H]; [apply orb_prop in H; destruct H as [H|H]|].
  - apply Ascii.eqb_eq in H. subst. exact Ha.
  - apply andb_prop in H. destruct H as [Hc Hb%Nat.eqb_eq].
    apply andb_prop in Hc. destruct Hc as [_ Hhi%Nat.leb_le]. lia.
  - apply andb_prop in H. destruct H as [Hc Hb%Nat.eqb_eq].
    apply andb_prop in Hc. destruct Hc as [_ Hhi%Nat.leb_le]. lia.
Qed.

Lemma same_letters_ascii s :
  forall t, is_ascii s = true -> same_letters s t = true -> is_ascii t = true.
Proof.
  induction s as [|a s IH]; intros [|b t]; try discriminate; [reflexivity|].
  cbn [same_letters is_ascii]. intros Ha H.
  apply andb_prop in Ha. destruct Ha as [Ha Hs].
  apply andb_prop in H. destruct H as [Hc Ht].
  rewrite (same_letter_ascii a b Ha Hc), (IH t Hs Ht). reflexivity.
Qed.

(** The category of a string of ASCII characters given in full. *)
Ltac category_of_ascii :=
  unfold categorize_file, categories; cbn [scan];
  rewrite ?lower_ascii_string by reflexivity; reflexivity.

Lemma lower_unknown {U : unicode} : lower "unknown" = "unknown".
Proof. rewrite lower_ascii_string by reflexivity. reflexivity. Qed.

Lemma categorize_file_unknown {U : unicode} : categorize_file "unknown" = "other".
Proof. category_of_ascii. Qed.

(** ** The characters of a string *)

Lemma split_characters_ascii s :
  is_ascii s = true ->
  split_characters s
  = (EmptyString, map (fun c => String c EmptyString) (list_ascii_of_string s)).
Proof.
  induction s as [|c s IH]; [reflexivity|].
  cbn [is_ascii split_characters list_ascii_of_string map]. intros H.
  apply andb_prop in H. destruct H as [Hc Hs]. rewrite (IH Hs).
  replace (is_continuation c) with false; [reflexivity|].
  unfold is_ascii_char in Hc. apply Nat.ltb_lt in Hc.
  unfold is_continuation. symmetry. apply andb_false_iff. left.
  apply Nat.leb_gt. exact Hc.
Qed.

Lemma split_characters_parts s :
  all_continuation (fst (split_characters s)) = true /\
  Forall (fun item => is_character item = true) (snd (split_characters s)) /\
  s = fst (split_characters s) ++ join (snd (split_characters s)).
Proof.
  induction s as [|c s IH]; [repeat split; constructor|].
  cbn [split_characters].
  destruct (split_characters s) as [tail items]. cbn [fst snd] in IH.
  destruct IH as (Htail & Hitems & Hs).
  destruct (is_continuation c) eqn:Hc; cbn [fst snd].
  - split; [cbn [all_continuation]; rewrite Hc, Htail; reflexivity|].
    split; [exact Hitems|]. simpl. rewrite <- Hs. reflexivity.
  - split; [reflexivity|]. split.
    + constructor; [|exact Hitems].
      cbn [is_character]. rewrite Hc, Htail. reflexivity.
    + simpl. rewrite <- Hs. reflexivity.
Qed.

(** The items are characters, and put together they are the string. *)
Lemma characters_join s :
  Forall (fun item => is_character item = true) (characters s) /\
  (leading_continuation s = false -> join (characters s) = s).
Proof.
  unfold characters.
  destruct (split_characters_parts s) as (_ & Hitems & Hs).
  split; [exact Hitems|]. intros Hlead.
  destruct s as [|c s]; [reflexivity|].
  cbn [leading_continuation] in Hlead.
  cbn [split_characters] in *. destruct (split_characters s) as [tail items].
  rewrite Hlead in *. cbn [fst snd] in *. symmetry. exact Hs.
Qed.

(** A string of ASCII characters has one character for each byte. *)
Lemma characters_ascii s :
  is_ascii s = true ->
  characters s = map (fun c => String c EmptyString) (list_ascii_of_string s) /\
  List.length (characters s) = String.length s.
Proof.
  intros H. unfold characters. rewrite (split_characters_ascii s H). cbn [snd].
  split; [reflexivity|]. rewrite length_map.
  clear H. induction s as [|c s IH]; [reflexivity|]. simpl. rewrite IH. reflexivity.
Qed.

(** A character outside ASCII is one item, whatever the number of its
    bytes: [e] with an acute accent is the bytes 195 and 169, the euro sign
    the bytes 226, 130 and 172. *)
Lemma characters_examples :
  characters "S3" = ["S"; "3"] /\
  characters (String (ascii_of_nat 195) (String (ascii_of_nat 169) "t"))
  = [String (ascii_of_nat 195) (String (ascii_of_nat 169) ""); "t"] /\
  List.length
    (characters (String (ascii_of_nat 226)
                   (String (ascii_of_nat 130) (String (ascii_of_nat 172) ""))))
  = 1%nat.
Proof. repeat split. Qed.

(** ** The loop body and the response *)

Lemma dict_get_dict fields key default :
  dict_get (JDict fields) key default
  = OK (match lookup key fields with Some v => v | None => default end).
Proof. unfold dict_get. destruct (lookup key fields); reflexivity. Qed.

Ltac step_bind :=
  match goal with
  | |- context [bind (dict_get (JDict ?f) ?k ?d) _] =>
      rewrite (dict_get_dict f k d); cbn [bind object_key bucket]
  | |- context [bind ?c _] =>
      destruct c eqn:?; cbn [bind snd fst object_key bucket]; try reflexivity
  end.

Lemma process_record_entry {U : unicode} env now record :
  snd (process_record env now record) = record_entry record.
Proof.
  unfold process_record, extract, record_entry.
  destruct record as [| | | | | |fields]; try reflexivity.
  repeat step_bind.
Qed.

Lemma process_records_kept {U : unicode} env clock records :
  forall k acc,
    snd (process_records env clock k records acc) = (acc ++ kept records)%list.
Proof.
  induction records as [|record rest IH]; intros k acc; simpl.
  - rewrite app_nil_r. reflexivity.
  - pose proof (process_record_entry env (clock k) record) as Hentry.
    destruct (process_record env (clock k) record) as [lines outcome].
    simpl in Hentry. subst outcome.
    specialize (IH (S k)).
    destruct (record_entry record) as [entry|e].
    + specialize (IH (acc ++ [entry])%list).
      destruct (process_records env clock (S k) rest (acc ++ [entry])%list).
      simpl in *. rewrite IH. rewrite <- app_assoc. reflexivity.
    + specialize (IH acc).
      destruct (process_records env clock (S k) rest acc).
      simpl in *. exact IH.
Qed.

Lemma lambda_handler_response {U : unicode} env clock event :
  snd (lambda_handler env clock event)
  = (batch <- dict_get event "Records" (JList []) ;;
     records <- iterate batch ;;
     OK (make_response (kept records))).
Proof.
  unfold lambda_handler.
  destruct (dict_get event "Records" (JList [])) as [batch|e]; [|reflexivity].
  cbn [bind].
  destruct (iterate batch) as [records|e]; [|reflexivity].
  cbn [bind].
  pose proof (process_records_kept env clock records 0 []) as Hk.
  destruct (process_records env clock 0 records []) as [lines processed].
  simpl in Hk. subst processed. reflexivity.
Qed.

Lemma split_not_nil sep s : split sep s <> [].
Proof.
  destruct s as [|c s]; simpl; [discriminate|].
  destruct (Ascii.eqb c sep); [discriminate|].
  destruct (split sep s); discriminate.
Qed.

Lemma index_last_last parts :
  parts <> [] -> index_last parts = OK (last parts EmptyString).
Proof.
  intros Hne. unfold index_last.
  destruct (exists_last Hne) as (front & x & ->).
  rewrite rev_unit, last_last. reflexivity.
Qed.

Lemma file_extension_str {U : unicode} key :
  file_extension (JStr key) = OK (key_extension key).
Proof.
  unfold file_extension, key_extension. cbn [contains_dot bind split_dot].
  destruct (has_char dot key); [|reflexivity].
  rewrite index_last_last by apply split_not_nil. reflexivity.
Qed.

Ltac split_andb H :=
  repeat (let H' := fresh "H" in
          apply andb_prop in H; destruct H as [H H']).

Ltac shape_cases :=
  repeat match goal with
         | H : absent_or _ ?t = true |- _ =>
             match t with
             | context [lookup ?k ?f] =>
                 let v := fresh "v" in
                 let E := fresh "E" in
                 destruct (lookup k f) as [v|] eqn:E in *;
                 [destruct v|];
                 cbn [at_path is_dict is_str is_byte_count absent_or] in *;
                 try discriminate
             end
         | H : true = true |- _ => clear H
         end.

Ltac use_lookups :=
  repeat match goal with
         | E : lookup ?k ?f = _ |- context [lookup ?k ?f] => rewrite E
         end.

Lemma record_entry_well_formed {U : unicode} record :
  well_formed record = true -> record_entry record = OK (entry_for record).
Proof.
  unfold well_formed, well_shaped, entry_for, key_category, field_or, record_entry.
  destruct record as [| | | | | |fields]; try discriminate.
  cbn [at_path is_dict andb absent_or].
  intros H. split_andb H.
  shape_cases.
  all: repeat (rewrite dict_get_dict; cbn [bind lookup]; use_lookups).
  all: repeat match goal with
         | H : (0 <=? ?n) && (?n <? overflow_threshold) = true |- _ =>
             apply andb_prop in H; destruct H as [?%Z.leb_le ?%Z.ltb_lt];
             destruct (format_size_byte_count n ltac:(lia)) as [? ->]
         end.
  all: try (destruct (format_size_byte_count 0 ltac:(split; [lia|reflexivity]))
             as [? ->]).
  all: cbn [bind]; rewrite file_extension_str; cbn [bind].
  all: repeat match goal with
         | |- context [lookup ?k ?f] => destruct (lookup k f)
         end; reflexivity.
Qed.

Lemma kept_well_formed {U : unicode} records :
  forallb well_formed records = true -> kept records = map entry_for records.
Proof.
  induction records as [|record rest IH]; simpl; [reflexivity|].
  intros H. apply andb_prop in H. destruct H as [Hr Hrest].
  rewrite (record_entry_well_formed record Hr). rewrite IH by exact Hrest.
  reflexivity.
Qed.

Lemma kept_app {U : unicode} before after :
  kept (before ++ after) = (kept before ++ kept after)%list.
Proof.
  induction before as [|record rest IH]; simpl; [reflexivity|].
  destruct (record_entry record); rewrite IH; reflexivity.
Qed.

Lemma kept_length {U : unicode} records : (List.length (kept records) <= List.length records)%nat.
Proof.
  induction records as [|record rest IH]; simpl; [lia|].
  destruct (record_entry record); simpl; lia.
Qed.

(** What the [except] clause logs when a record raises. *)
Lemma process_record_raise {U : unicode} env now record e :
  snd (process_record env now record) = Raise e ->
  In (error [Text "Error processing record: "; Exception e])
     (fst (process_record env now record)) /\
  In (error [Text "Record: "; Dumped (json_dumps record)])
     (fst (process_record env now record)).
Proof.
  unfold process_record.
  destruct (extract env now record) as [entry|e'].
  - destruct (file_extension (object_key entry)) as [extension|e'];
      cbn [snd fst]; intros H; [discriminate|].
    injection H as ->.
    split; apply in_or_app; right; simpl; auto.
  - cbn [snd fst]. intros H. injection H as ->.
    split; simpl; auto.
Qed.

Lemma process_records_lines {U : unicode} env clock before :
  forall k acc record after line,
    In line (fst (process_record env (clock (k + List.length before)%nat) record)) ->
    In line (fst (process_records env clock k (before ++ record :: after) acc)).
Proof.
  induction before as [|first before IH]; intros k acc record after line Hin.
  - simpl in *. rewrite Nat.add_0_r in Hin.
    destruct (process_record env (clock k) record) as [lines outcome].
    destruct (process_records env clock (S k) after _) as [lines' final].
    simpl in *. apply in_or_app. left. exact Hin.
  - simpl.
    destruct (process_record env (clock k) first) as [lines outcome].
    specialize (IH (S k)
                  match outcome with
                  | OK entry => (acc ++ [entry])%list
                  | Raise _ => acc
                  end record after line).
    destruct (process_records env clock (S k) (before ++ record :: after) _)
      as [lines' final].
    simpl. apply in_or_app. right. apply IH.
    simpl in Hin. replace (S k + List.length before)%nat
      with (k + S (List.length before))%nat by lia. exact Hin.
Qed.

Lemma lambda_handler_lines {U : unicode} env clock event records :
  dict_get event "Records" (JList []) = OK (JList records) ->
  forall line,
    In line (fst (process_records env clock 0 records [])) ->
    In line (fst (lambda_handler env clock event)).
Proof.
  intros Hget line Hin. unfold lambda_handler. rewrite Hget.
  cbn [iterate].
  destruct (process_records env clock 0 records []) as [lines processed].
  cbn [fst] in *. apply in_or_app. right. apply in_or_app. left. exact Hin.
Qed.

Lemma dict_get_field_or event key default :
  is_dict event = true ->
  dict_get event key default = OK (field_or [key] default event).
Proof.
  destruct event; try discriminate. intros _.
  rewrite dict_get_dict. unfold field_or. cbn [at_path].
  destruct (lookup key fields); reflexivity.
Qed.

Lemma is_batch_iterates event :
  is_batch event = true ->
  exists records,
    (batch <- dict_get event "Records" (JList []) ;; iterate batch) = OK records.
Proof.
  unfold is_batch. destruct event as [| | | | | |fields]; try discriminate.
  cbn [is_dict andb at_path]. rewrite dict_get_dict. cbn [bind].
  destruct (lookup "Records" fields) as [batch|]; cbn [absent_or].
  - destruct batch; try discriminate; intros _; cbn [iterate]; eauto.
  - intros _. cbn [iterate]. eauto.
Qed.

(** An event that is not a batch makes the handler raise. *)
Lemma not_batch_raises {U : unicode} env clock event :
  is_batch event = false ->
  exists e, snd (lambda_handler env clock event) = Raise e.
Proof.
  rewrite lambda_handler_response.
  unfold is_batch. destruct event as [| | | | | |fields];
    try (intros _; cbn; eauto; fail).
  cbn [is_dict andb at_path]. rewrite dict_get_dict. cbn [bind].
  destruct (lookup "Records" fields) as [batch|]; cbn [absent_or].
  - destruct batch; try discriminate; intros _; cbn; eauto.
  - discriminate.
Qed.

(** ** The batch response *)

(** C1, as stated, fails: an event whose ["Records"] is [null] makes the
    [for] statement raise outside the [try], and nothing is returned. *)
Lemma lambda_handler_null_records_raises :
  snd (lambda_handler default_environ (fun _ => EmptyString)
         (JDict [("Records", JNull)]))
  = Raise (TypeError "'NoneType' object is not iterable") /\
  ~ (exists r,
       snd (lambda_handler default_environ (fun _ => EmptyString)
              (JDict [("Records", JNull)])) = OK r).
Proof.
  split; [reflexivity|]. intros [r Hr]. discriminate Hr.
Qed.

(** C1, amended: for every event that is an object whose ["Records"] is
    absent or is iterable (an array, a string or an object), whatever the
    records are and however many of them raise, the handler returns a
    response with status 200 whose body carries the fixed message, the
    count of the records that did not raise and their entries. *)
Theorem batch_status_200 {U : unicode} env clock event (Hbatch : is_batch event = true) :
  exists r records,
    snd (lambda_handler env clock event) = OK r /\
    iterate (field_or ["Records"] (JList []) event) = OK records /\
    statusCode r = 200 /\
    body r = json_dumps
               (JDict [("message", JStr "S3 upload event(s) logged successfully");
                       ("records_processed",
                        JInt (Z.of_nat (List.length (kept records))));
                       ("details", JList (kept records))]).
Proof.
  destruct (is_batch_iterates event Hbatch) as [records Hrecords].
  assert (Hd : is_dict event = true).
  { unfold is_batch in Hbatch. apply andb_prop in Hbatch. tauto. }
  rewrite (dict_get_field_or event "Records" (JList []) Hd) in Hrecords.
  cbn [bind] in Hrecords.
  exists (make_response (kept records)), records.
  split.
  - rewrite lambda_handler_response.
    rewrite (dict_get_field_or event "Records" (JList []) Hd). cbn [bind].
    rewrite Hrecords. reflexivity.
  - split; [exact Hrecords|]. split; reflexivity.
Qed.

(** A batch of three in which the second record is not an object and the
    third has a size that cannot be compared: two errors, status 200. *)
Lemma batch_status_200_witness :
  is_batch mixed_batch = true /\
  exists r records,
    snd (lambda_handler default_environ (fun _ => EmptyString) mixed_batch) = OK r /\
    iterate (field_or ["Records"] (JList []) mixed_batch) = OK records /\
    statusCode r = 200 /\
    body r = json_dumps
               (JDict [("message", JStr "S3 upload event(s) logged successfully");
                       ("records_processed",
                        JInt (Z.of_nat (List.length (kept records))));
                       ("details", JList (kept records))]).
Proof.
  split; [reflexivity|].
  exact (batch_status_200 default_environ (fun _ => EmptyString) mixed_batch eq_refl).
Defined.

(** C5: for a batch of N well-formed records, N = 0 included, the response
    reports [records_processed = N] and [details] holds the N entries of
    the records, in the order of the batch. *)
Theorem well_formed_batch {U : unicode} env clock event records
    (Hevent : is_dict event = true)
    (Hrecords : field_or ["Records"] (JList []) event = JList records)
    (Hwf : forallb well_formed records = true) :
  exists r details,
    snd (lambda_handler env clock event) = OK r /\
    statusCode r = 200 /\
    body_field "records_processed" r = Some (JInt (Z.of_nat (List.length records))) /\
    body_field "details" r = Some (JList details) /\
    List.length details = List.length records /\
    details = map entry_for records.
Proof.
  exists (make_response (map entry_for records)), (map entry_for records).
  split.
  - rewrite lambda_handler_response.
    rewrite (dict_get_field_or event "Records" (JList []) Hevent).
    rewrite Hrecords. cbn [bind iterate].
    rewrite kept_well_formed by exact Hwf. reflexivity.
  - split; [reflexivity|].
    unfold body_field, make_response. cbn.
    rewrite length_map. repeat split; reflexivity.
Qed.

(** The sample event of the source: one record, one entry. *)
Lemma well_formed_batch_witness :
  is_dict test_event = true /\
  exists r details,
    snd (lambda_handler default_environ (fun _ => EmptyString) test_event) = OK r /\
    statusCode r = 200 /\
    body_field "records_processed" r = Some (JInt 1) /\
    body_field "details" r = Some (JList details) /\
    List.length details = 1%nat /\
    details = [JDict [("bucket", JStr "job-portal-dev-files");
                      ("key", JStr "resumes/john_doe_resume.pdf");
                      ("category", JStr "resume")]].
Proof.
  split; [reflexivity|].
  exact (well_formed_batch default_environ (fun _ => EmptyString) test_event _
           eq_refl eq_refl ltac:(vm_compute; reflexivity)).
Defined.

(** An empty batch, or an event without ["Records"], is not an error. *)
Lemma empty_batch {U : unicode} env clock :
  snd (lambda_handler env clock (JDict [("Records", JList [])]))
  = OK (make_response []) /\
  snd (lambda_handler env clock (JDict [])) = OK (make_response []) /\
  body_field "records_processed" (make_response []) = Some (JInt 0) /\
  body_field "details" (make_response []) = Some (JList []).
Proof.
  repeat split.
Qed.

(** ** Records that raise *)

(** C6: in a batch of N records of which one raises in the loop body and
    the others are well formed, the handler logs the error and the raw
    record, returns status 200 with [records_processed = N - 1], and
    [details] holds the entries of the other records, those after the bad
    one included, in order. *)
Theorem one_malformed_record {U : unicode} env clock event before bad after e
    (Hevent : is_dict event = true)
    (Hrecords : field_or ["Records"] (JList []) event
                = JList (before ++ bad :: after))
    (Hbefore : forallb well_formed before = true)
    (Hafter : forallb well_formed after = true)
    (Hbad : snd (process_record env (clock (List.length before)) bad) = Raise e) :
  exists lines r,
    lambda_handler env clock event = (lines, OK r) /\
    statusCode r = 200 /\
    body_field "message" r = Some (JStr "S3 upload event(s) logged successfully") /\
    body_field "records_processed" r
    = Some (JInt (Z.of_nat (List.length (before ++ bad :: after)) - 1)) /\
    body_field "details" r
    = Some (JList (map entry_for before ++ map entry_for after)) /\
    In (error [Text "Error processing record: "; Exception e]) lines /\
    In (error [Text "Record: "; Dumped (json_dumps bad)]) lines.
Proof.
  pose proof (dict_get_field_or event "Records" (JList []) Hevent) as Hget.
  rewrite Hrecords in Hget.
  pose proof (lambda_handler_response env clock event) as Hresp.
  rewrite Hget in Hresp. cbn [bind iterate] in Hresp.
  assert (Hkept : kept (before ++ bad :: after)
                  = (map entry_for before ++ map entry_for after)%list).
  { rewrite kept_app. simpl.
    rewrite <- (process_record_entry env (clock (List.length before)) bad), Hbad.
    rewrite !kept_well_formed by assumption. reflexivity. }
  rewrite Hkept in Hresp.
  destruct (process_record_raise _ _ _ _ Hbad) as [Herr Hraw].
  destruct (lambda_handler env clock event) as [lines outcome] eqn:Hrun.
  cbn [snd] in Hresp. subst outcome.
  exists lines, (make_response (map entry_for before ++ map entry_for after)).
  split; [reflexivity|]. split; [reflexivity|].
  split; [reflexivity|].
  split.
  { unfold body_field, make_response. cbn. do 2 f_equal.
    rewrite !length_app, !length_map. simpl. lia. }
  split; [reflexivity|].
  change lines with (fst (lines, OK (make_response
                       (map entry_for before ++ map entry_for after)))).
  rewrite <- Hrun.
  split; apply (lambda_handler_lines env clock event _ Hget);
    apply process_records_lines; simpl; assumption.
Qed.

(** Three records, the second of which is a number. *)
Lemma one_malformed_record_witness :
  exists lines r,
    lambda_handler default_environ (fun _ => EmptyString)
      (JDict [("Records", JList [JDict []; JInt 4; JDict []])]) = (lines, OK r) /\
    statusCode r = 200 /\
    body_field "message" r = Some (JStr "S3 upload event(s) logged successfully") /\
    body_field "records_processed" r = Some (JInt 2) /\
    body_field "details" r
    = Some (JList [entry_for (JDict []); entry_for (JDict [])]) /\
    In (error [Text "Error processing record: ";
               Exception (AttributeError "int" "get")]) lines /\
    In (error [Text "Record: "; Dumped (json_dumps (JInt 4))]) lines.
Proof.
  exact (one_malformed_record default_environ (fun _ => EmptyString)
           (JDict [("Records", JList [JDict []; JInt 4; JDict []])])
           [JDict []] (JInt 4) [JDict []] (AttributeError "int" "get")
           eq_refl eq_refl eq_refl eq_refl eq_refl).
Defined.

(** ** Determinism of the response *)

(** C10: the response, or the exception that leaves the handler, is the
    same under any two process environments and any two clocks: it is a
    function of the event alone. *)
Theorem response_deterministic {U : unicode} env1 clock1 env2 clock2 event :
  snd (lambda_handler env1 clock1 event) = snd (lambda_handler env2 clock2 event).
Proof.
  rewrite !lambda_handler_response. reflexivity.
Qed.

(** The environment and the clock do reach the log. *)
Lemma log_depends_on_environment :
  fst (lambda_handler default_environ (fun _ => "12:00")
         (JDict [("Records", JList [JDict []])]))
  <> fst (lambda_handler {| PROJECT_NAME := Some "portal"; ENVIRONMENT := None |}
            (fun _ => "12:00") (JDict [("Records", JList [JDict []])])) /\
  fst (lambda_handler default_environ (fun _ => "12:00")
         (JDict [("Records", JList [JDict []])]))
  <> fst (lambda_handler default_environ (fun _ => "12:01")
            (JDict [("Records", JList [JDict []])])).
Proof.
  split; vm_compute; discriminate.
Qed.

Lemma extract_well_shaped env now record :
  well_shaped record = true ->
  exists readable,
    format_size (field_or ["s3"; "object"; "size"] (JInt 0) record) = OK readable /\
    extract env now record
    = OK {| timestamp := field_or ["eventTime"] (JStr now) record;
            project := project_name env;
            environment := environment_name env;
            event_type := field_or ["eventName"] (JStr "Unknown") record;
            bucket := field_or ["s3"; "bucket"; "name"] (JStr "Unknown") record;
            object_key := field_or ["s3"; "object"; "key"] (JStr "Unknown") record;
            object_size_bytes := field_or ["s3"; "object"; "size"] (JInt 0) record;
            object_size_readable := readable;
            source_ip := field_or ["requestParameters"; "sourceIPAddress"]
                           (JStr "Unknown") record;
            user_identity := field_or ["userIdentity"; "principalId"]
                               (JStr "Unknown") record |}.
Proof.
  unfold well_shaped, field_or, extract.
  destruct record as [| | | | | |fields]; try discriminate.
  cbn [at_path is_dict andb absent_or].
  intros H. split_andb H.
  shape_cases.
  all: repeat (rewrite dict_get_dict; cbn [bind lookup]; use_lookups).
  all: repeat match goal with
         | H : (0 <=? ?n) && (?n <? overflow_threshold) = true |- _ =>
             apply andb_prop in H; destruct H as [?%Z.leb_le ?%Z.ltb_lt];
             destruct (format_size_byte_count n ltac:(lia)) as [readable Hr]
         end.
  all: try (destruct (format_size_byte_count 0 ltac:(split; [lia|reflexivity]))
             as [readable Hr]).
  all: exists readable; rewrite Hr; split; [reflexivity|]; cbn [bind].
  all: repeat (rewrite dict_get_dict; cbn [bind lookup]; use_lookups).
  all: repeat match goal with
         | |- context [lookup ?k ?f] => destruct (lookup k f)
         end; reflexivity.
Qed.

(** ** Absent fields *)

(** C7: on a record of the expected shape, extraction does not raise, and a
    field that is absent takes its default: 0 for the size, the current time
    for the event time, "Unknown" for the event name, the source address and
    the principal. *)
Theorem absent_fields_default env now record
    (Hshape : well_shaped record = true) :
  exists entry,
    extract env now record = OK entry /\
    (absent ["s3"; "object"; "size"] record -> object_size_bytes entry = JInt 0) /\
    (absent ["eventTime"] record -> timestamp entry = JStr now) /\
    (absent ["eventName"] record -> event_type entry = JStr "Unknown") /\
    (absent ["requestParameters"; "sourceIPAddress"] record ->
     source_ip entry = JStr "Unknown") /\
    (absent ["userIdentity"; "principalId"] record ->
     user_identity entry = JStr "Unknown").
Proof.
  destruct (extract_well_shaped env now record Hshape) as (readable & _ & Hex).
  eexists. split; [exact Hex|].
  unfold absent, field_or. cbn [object_size_bytes timestamp event_type source_ip
                               user_identity].
  repeat split; intros ->; reflexivity.
Qed.

(** The empty record: every field is absent. *)
Lemma absent_fields_default_witness :
  well_shaped (JDict []) = true /\
  exists entry,
    extract default_environ "2024-12-01T12:00:00" (JDict []) = OK entry /\
    (absent ["s3"; "object"; "size"] (JDict []) -> object_size_bytes entry = JInt 0) /\
    (absent ["eventTime"] (JDict []) ->
     timestamp entry = JStr "2024-12-01T12:00:00") /\
    (absent ["eventName"] (JDict []) -> event_type entry = JStr "Unknown") /\
    (absent ["requestParameters"; "sourceIPAddress"] (JDict []) ->
     source_ip entry = JStr "Unknown") /\
    (absent ["userIdentity"; "principalId"] (JDict []) ->
     user_identity entry = JStr "Unknown").
Proof.
  split; [reflexivity|].
  exact (absent_fields_default default_environ "2024-12-01T12:00:00" (JDict [])
           eq_refl).
Defined.

(** C9: a well-formed record without bucket name or without key is processed
    like any other: the missing bucket name and the missing key become
    "Unknown", the category of a missing key is "other", and the record
    counts among the processed ones. *)
Theorem absent_bucket_or_key {U : unicode} env clock record
    (Hwf : well_formed record = true) :
  exists bucket_name key category,
    (forall now,
       snd (process_record env now record)
       = OK (JDict [("bucket", bucket_name); ("key", key);
                    ("category", JStr category)])) /\
    (absent ["s3"; "bucket"; "name"] record -> bucket_name = JStr "Unknown") /\
    (absent ["s3"; "object"; "key"] record ->
     key = JStr "Unknown" /\ category = "other") /\
    exists r,
      snd (lambda_handler env clock (JDict [("Records", JList [record])])) = OK r /\
      body_field "records_processed" r = Some (JInt 1) /\
      body_field "details" r
      = Some (JList [JDict [("bucket", bucket_name); ("key", key);
                            ("category", JStr category)]]).
Proof.
  pose proof (record_entry_well_formed record Hwf) as Hentry.
  unfold entry_for in Hentry.
  eexists _, _, _. split; [|split; [|split]].
  - intros now. rewrite process_record_entry. exact Hentry.
  - unfold absent, field_or. intros ->. reflexivity.
  - unfold absent, field_or. intros ->.
    split; [reflexivity|exact categorize_file_unknown].
  - eexists. split.
    + rewrite lambda_handler_response.
      change (dict_get (JDict [("Records", JList [record])]) "Records" (JList []))
        with (OK (JList [record])).
      cbn [bind iterate kept]. rewrite Hentry. reflexivity.
    + split; reflexivity.
Qed.

(** The empty record yields the entry with both defaults. *)
Lemma absent_bucket_or_key_witness :
  well_formed (JDict []) = true /\
  snd (process_record default_environ EmptyString (JDict []))
  = OK (JDict [("bucket", JStr "Unknown"); ("key", JStr "Unknown");
               ("category", JStr "other")]) /\
  exists r,
    snd (lambda_handler default_environ (fun _ => EmptyString)
           (JDict [("Records", JList [JDict []])])) = OK r /\
    body_field "records_processed" r = Some (JInt 1) /\
    body_field "details" r
    = Some (JList [JDict [("bucket", JStr "Unknown"); ("key", JStr "Unknown");
                          ("category", JStr "other")]]).
Proof.
  split; [reflexivity|].
  destruct (absent_bucket_or_key default_environ (fun _ => EmptyString) (JDict [])
              eq_refl)
    as (bucket_name & key & category & Hentry & Hbucket & Hkey & r & Hr & Hn & Hd).
  destruct (Hkey eq_refl) as [-> ->]. rewrite (Hbucket eq_refl) in *.
  split; [apply Hentry|].
  exists r. split; [exact Hr|]. split; [exact Hn|exact Hd].
Defined.

Lemma empty_record_entry {U : unicode} env now :
  snd (process_record env now (JDict []))
  = OK (JDict [("bucket", JStr "Unknown"); ("key", JStr "Unknown");
               ("category", JStr "other")]).
Proof.
  rewrite process_record_entry, (record_entry_well_formed (JDict []) eq_refl).
  unfold entry_for, field_or. cbn [at_path lookup key_category].
  change (key_extension "Unknown") with "unknown".
  rewrite categorize_file_unknown. reflexivity.
Qed.


(** ** Extensions *)

Lemma split_no_sep sep s : has_char sep s = false -> split sep s = [s].
Proof.
  induction s as [|c s IH]; simpl; [reflexivity|].
  destruct (Ascii.eqb c sep); [discriminate|]. simpl.
  intros H. rewrite IH by exact H. reflexivity.
Qed.

Lemma has_char_app sep stem suffix :
  has_char sep (stem ++ String sep suffix) = true.
Proof.
  induction stem as [|c stem IH]; simpl.
  - rewrite Ascii.eqb_refl. reflexivity.
  - rewrite IH. apply orb_true_r.
Qed.

(** After the last separator comes the last piece. *)
Lemma split_app_last sep stem suffix :
  has_char sep suffix = false ->
  exists piece pieces,
    split sep (stem ++ String sep suffix) = piece :: pieces /\
    pieces <> [] /\
    last pieces EmptyString = suffix.
Proof.
  intros Hs. induction stem as [|c stem IH]; simpl.
  - rewrite Ascii.eqb_refl. rewrite (split_no_sep _ _ Hs).
    exists EmptyString, [suffix]. repeat split. discriminate.
  - destruct IH as (piece & pieces & Hsplit & Hne & Hlast).
    rewrite Hsplit.
    destruct (Ascii.eqb c sep).
    + exists EmptyString, (piece :: pieces). split; [reflexivity|].
      split; [discriminate|].
      destruct pieces; [contradiction|exact Hlast].
    + exists (String c piece), pieces. auto.
Qed.

Lemma key_extension_suffix {U : unicode} stem suffix :
  has_char dot suffix = false ->
  key_extension (stem ++ String dot suffix) = lower suffix.
Proof.
  intros Hs. unfold key_extension. rewrite has_char_app.
  destruct (split_app_last dot stem suffix Hs) as (piece & pieces & -> & Hne & Hlast).
  destruct pieces as [|next pieces]; [contradiction|].
  change (last (piece :: next :: pieces) EmptyString)
    with (last (next :: pieces) EmptyString).
  rewrite Hlast. reflexivity.
Qed.

(** C8: a key without '.' has the extension "unknown", whose category is
    "other"; a key with a '.' has for extension what follows its last '.',
    in lower case: [str.lower] of it, which for a suffix of ASCII characters
    holds no capital letter and differs from the suffix in the case of its
    letters only. *)
Theorem extension_of_key {U : unicode} (key : string) :
  (has_char dot key = false ->
   file_extension (JStr key) = OK "unknown" /\
   categorize_file "unknown" = "other" /\
   key_category (JStr key) = "other") /\
  (forall stem suffix,
     key = stem ++ String dot suffix ->
     has_char dot suffix = false ->
     file_extension (JStr key) = OK (lower suffix) /\
     (is_ascii suffix = true ->
      has_capital (lower suffix) = false /\
      same_letters suffix (lower suffix) = true)).
Proof.
  split.
  - intros Hno. rewrite file_extension_str.
    unfold key_category, key_extension. rewrite Hno.
    repeat split; exact categorize_file_unknown.
  - intros stem suffix -> Hs. rewrite file_extension_str.
    rewrite key_extension_suffix by exact Hs. split; [reflexivity|].
    intros Ha. rewrite (lower_ascii_string suffix Ha).
    split; [apply ascii_lower_small|apply same_letters_ascii_lower].
Qed.

(** A key with two dots and a capital extension, and a key with none. *)
Lemma extension_of_key_witness :
  file_extension (JStr "archive.tar.GZ") = OK "gz" /\
  has_capital "gz" = false /\
  file_extension (JStr "README") = OK "unknown" /\
  key_category (JStr "README") = "other".
Proof.
  destruct (proj2 (extension_of_key "archive.tar.GZ") "archive.tar" "GZ"
              eq_refl eq_refl) as [Hext Hcase].
  destruct (proj1 (extension_of_key "README") eq_refl) as (Hnone & _ & Hother).
  split; [exact Hext|]. split; [exact (proj1 (Hcase eq_refl))|].
  split; [exact Hnone|exact Hother].
Defined.

Lemma extension_examples :
  file_extension (JStr "resumes/john_doe_resume.pdf") = OK "pdf" /\
  file_extension (JStr "archive.tar.GZ") = OK "gz" /\
  file_extension (JStr "README") = OK "unknown" /\
  file_extension (JStr "notes.") = OK "" /\
  file_extension (JStr "v1.2/README") = OK "2/readme".
Proof. repeat split. Qed.

(** ** Categories *)

Lemma mem_In x extensions : mem x extensions = true <-> In x extensions.
Proof.
  unfold mem. rewrite existsb_exists. split.
  - intros (y & Hy & Heq). apply String.eqb_eq in Heq. subst. exact Hy.
  - intros H. exists x. split; [exact H|apply String.eqb_refl].
Qed.

(** The loop returns the first category of the table that lists the
    lower-cased extension. *)
Lemma scan_first_match {U : unicode} extension items category :
  scan extension items = Some category <->
  exists before extensions after,
    items = (before ++ (category, extensions) :: after)%list /\
    mem (lower extension) extensions = true /\
    Forall (fun item => mem (lower extension) (snd item) = false) before.
Proof.
  induction items as [|[c exts] items IH]; simpl.
  - split; [discriminate|].
    intros (before & extensions & after & H & _). destruct before; discriminate.
  - destruct (mem (lower extension) exts) eqn:Hm.
    + split.
      * intros H. injection H as <-. exists [], exts, items.
        split; [reflexivity|]. split; [exact Hm|constructor].
      * intros (before & extensions & after & H & Hmem & Hall).
        destruct before as [|item before]; simpl in H.
        -- injection H as -> _ _. reflexivity.
        -- injection H as <- _. inversion Hall as [|? ? Hitem]. simpl in Hitem.
           congruence.
    + rewrite IH. split.
      * intros (before & extensions & after & -> & Hmem & Hall).
        exists ((c, exts) :: before), extensions, after.
        split; [reflexivity|]. split; [exact Hmem|].
        constructor; [exact Hm|exact Hall].
      * intros (before & extensions & after & H & Hmem & Hall).
        destruct before as [|item before]; simpl in H.
        -- injection H as _ -> _. congruence.
        -- injection H as _ ->. inversion Hall.
           exists before, extensions, after. auto.
Qed.

Lemma scan_none {U : unicode} extension items :
  scan extension items = None <->
  Forall (fun item => mem (lower extension) (snd item) = false) items.
Proof.
  induction items as [|[c exts] items IH]; simpl.
  - split; auto.
  - destruct (mem (lower extension) exts) eqn:Hm.
    + split; [discriminate|]. intros H. inversion H. simpl in *. congruence.
    + rewrite IH. split; [auto|]. intros H. inversion H. assumption.
Qed.

Lemma scan_lower {U : unicode} extension items :
  scan extension items = scan (lower extension) items.
Proof.
  induction items as [|[c exts] items IH]; simpl; [reflexivity|].
  rewrite lower_idempotent, IH. reflexivity.
Qed.

Lemma categorize_file_lower {U : unicode} extension :
  categorize_file extension = categorize_file (lower extension).
Proof.
  unfold categorize_file. rewrite scan_lower. reflexivity.
Qed.

(** C2: the table is the one of the design, in its order; the first
    category whose list holds the lower-cased extension is returned;
    without a match the result is "other"; the case of the extension does
    not matter: an extension and its lower case have the same category, and
    so have two extensions of ASCII characters that differ in the case of
    their letters only. *)
Theorem categorize_file_table {U : unicode} :
  categories
  = [ ("resume",  ["pdf"; "doc"; "docx"; "txt"; "rtf"; "odt"]);
      ("image",   ["jpg"; "jpeg"; "png"; "gif"; "webp"; "svg"; "bmp"; "ico"]);
      ("data",    ["csv"; "xlsx"; "xls"; "json"; "xml"; "yaml"; "yml"]);
      ("archive", ["zip"; "tar"; "gz"; "rar"; "7z"]);
      ("video",   ["mp4"; "avi"; "mov"; "mkv"; "webm"]);
      ("audio",   ["mp3"; "wav"; "flac"; "aac"; "ogg"]) ] /\
  (forall extension, categorize_file extension = categorize_spec extension) /\
  (forall extension category before extensions after,
     categories = (before ++ (category, extensions) :: after)%list ->
     In (lower extension) extensions ->
     (forall item, In item before -> ~ In (lower extension) (snd item)) ->
     categorize_file extension = category) /\
  (forall extension category extensions,
     In (category, extensions) categories ->
     In (lower extension) extensions ->
     categorize_file extension = category) /\
  (forall extension,
     (forall category extensions,
        In (category, extensions) categories -> ~ In (lower extension) extensions) ->
     categorize_file extension = "other") /\
  (forall extension, categorize_file extension = categorize_file (lower extension)) /\
  (forall extension extension',
     is_ascii extension = true ->
     same_letters extension extension' = true ->
     categorize_file extension = categorize_file extension') /\
  categorize_file "PDF" = "resume" /\
  categorize_file "pdf" = "resume" /\
  categorize_file "Jpeg" = "image" /\
  categorize_file "YAML" = "data" /\
  categorize_file "7Z" = "archive" /\
  categorize_file "WebM" = "video" /\
  categorize_file "flaC" = "audio" /\
  categorize_file "xyz" = "other".
Proof.
  split; [reflexivity|].
  split; [intros extension; unfold categorize_file, categorize_spec, categories;
          cbn [scan];
          repeat match goal with
                 | |- context [mem ?x ?l] => destruct (mem x l)
                 end; reflexivity|].
  split.
  { intros extension category before extensions after Htable Hin Hbefore.
    unfold categorize_file.
    replace (scan extension categories) with (Some category); [reflexivity|].
    symmetry. apply scan_first_match.
    exists before, extensions, after.
    split; [exact Htable|]. split; [apply mem_In; exact Hin|].
    apply Forall_forall. intros item Hitem.
    destruct (mem (lower extension) (snd item)) eqn:Hm; [|reflexivity].
    apply mem_In in Hm. exfalso. exact (Hbefore item Hitem Hm). }
  split.
  { intros extension category extensions Hcat Hin.
    rewrite categorize_file_lower.
    simpl in Hcat.
    repeat (destruct Hcat as [Hcat|Hcat];
            [injection Hcat as <- <-; simpl in Hin;
             repeat (destruct Hin as [<-|Hin]; [category_of_ascii|]);
             contradiction|]).
    contradiction. }
  split.
  { intros extension Hnone. unfold categorize_file.
    replace (scan extension categories) with (@None string); [reflexivity|].
    symmetry. apply scan_none. apply Forall_forall. intros [c exts] Hitem.
    destruct (mem (lower extension) (snd (c, exts))) eqn:Hm; [|reflexivity].
    apply mem_In in Hm. exfalso. exact (Hnone c exts Hitem Hm). }
  split; [exact categorize_file_lower|].
  split.
  { intros extension extension' Ha Hsame.
    rewrite (categorize_file_lower extension), (categorize_file_lower extension').
    rewrite (lower_ascii_string extension Ha).
    rewrite (lower_ascii_string extension'
               (same_letters_ascii extension extension' Ha Hsame)).
    rewrite (same_letters_lower extension extension' Hsame). reflexivity. }
  repeat split; category_of_ascii.
Qed.

(** The same extension written in two ways. *)
Lemma categorize_file_table_witness :
  categorize_file "DocX" = "resume" /\
  categorize_file "DocX" = categorize_file "dOCx" /\
  categorize_file "docx.bak" = "other".
Proof.
  destruct (@categorize_file_table ascii_letters)
    as (_ & _ & _ & Hmember & Hnone & _ & Hcase & _).
  split; [|split].
  - apply (Hmember "DocX" "resume" ["pdf"; "doc"; "docx"; "txt"; "rtf"; "odt"]);
      simpl; tauto.
  - apply Hcase; reflexivity.
  - apply Hnone. intros category extensions Hcat Hin. simpl in Hcat.
    repeat (destruct Hcat as [Hcat|Hcat];
            [injection Hcat as <- <-; simpl in Hin;
             repeat (destruct Hin as [Hin|Hin]; [discriminate Hin|]);
             contradiction|]).
    contradiction.
Defined.

(** * Further properties *)


(** ** Sizes that are floats *)

Lemma advance_of_float room :
  forall f i, exists f' j,
    advance room (JFloat f) i = OK (JFloat f', j) /\ (j <= i + room)%nat.
Proof.
  induction room as [|room IH]; intros f i; cbn [advance ge_1024 bind].
  - exists f, i. split; [reflexivity|lia].
  - destruct (SFleb F64.f1024 f).
    + cbn [truediv_1024 bind].
      destruct (IH (F64.div f F64.f1024) (S i)) as (f' & j & -> & Hj).
      exists f', j. split; [reflexivity|lia].
    + exists f, i. split; [reflexivity|lia].
Qed.

Lemma index_name_bounded i :
  (i <= 4)%nat ->
  exists unit, index_name i = OK unit /\ In unit ["B"; "KB"; "MB"; "GB"; "TB"].
Proof.
  intros Hi. unfold index_name.
  destruct i as [|[|[|[|[|i]]]]]; try lia; simpl; eauto 10.
Qed.

(** X1: a size that is a float never makes [format_size] raise: the result
    is "0 B" for a zero and otherwise a formatted float, a space and one of
    the five units. *)
Theorem format_size_float_returns (f : spec_float) :
  (SFeqb f (S754_zero false) = true /\ format_size (JFloat f) = OK "0 B") \/
  (SFeqb f (S754_zero false) = false /\
   exists f' unit,
     In unit ["B"; "KB"; "MB"; "GB"; "TB"] /\
     format_size (JFloat f) = OK (format_2f f' ++ " " ++ unit)).
Proof.
  unfold format_size. cbn [eq_zero].
  destruct (SFeqb f (S754_zero false)); [left; auto|right].
  split; [reflexivity|].
  change (List.length size_names - 1)%nat with 4%nat.
  destruct (advance_of_float 4 f 0) as (f' & j & -> & Hj).
  cbn [bind format_value_2f].
  destruct (index_name_bounded j ltac:(lia)) as (unit & -> & Hin).
  exists f', unit. split; [exact Hin|reflexivity].
Qed.

(** ** Sizes that are not numbers *)

Lemma format_size_not_number v :
  is_number v = false ->
  format_size v
  = Raise (TypeError ("'>=' not supported between instances of '"
                      ++ type_name v ++ "' and 'int'")).
Proof.
  destruct v; try discriminate; intros _; reflexivity.
Qed.

(** ** Negative sizes and the sign *)

Lemma binary_round_aux_opp m e l :
  binary_round_aux F64.prec F64.emax true m e l
  = SFopp (binary_round_aux F64.prec F64.emax false m e l).
Proof.
  unfold binary_round_aux.
  destruct (shr_fexp F64.prec F64.emax m e l) as [mrs e'].
  destruct (shr_fexp F64.prec F64.emax _ e' loc_Exact) as [mrs' e''].
  destruct (shr_m mrs'); try reflexivity.
  destruct (e'' <=? F64.emax - F64.prec); reflexivity.
Qed.

Lemma of_scaled_neg p e :
  F64.of_scaled (Zneg p) e = SFopp (F64.of_scaled (Zpos p) e).
Proof.
  unfold F64.of_scaled, binary_normalize, binary_round.
  destruct (shl_align p e _) as [mz ez].
  apply binary_round_aux_opp.
Qed.

(** ** Byte counts below 2^53: no rounding of the quotient *)

Lemma pos_iter_xO p k : Zpos (Pos.iter xO p k) = Zpos p * 2 ^ Zpos k.
Proof.
  induction k using Pos.peano_ind.
  - simpl. lia.
  - rewrite Pos.iter_succ, Pos2Z.inj_xO, IHk, Pos2Z.inj_succ, Z.pow_succ_r by lia.
    lia.
Qed.

(** An integer below 2^53 is a binary64: its significand is the integer
    shifted to 53 bits. *)
Lemma of_scaled_exact p e :
  Zpos p < 2 ^ 53 -> -1022 <= e -> Z.log2 (Zpos p) + e - 52 <= 971 ->
  exists m,
    F64.of_scaled (Zpos p) e = S754_finite false m (Z.log2 (Zpos p) + e - 52) /\
    Zpos m = Zpos p * 2 ^ (52 - Z.log2 (Zpos p)).
Proof.
  intros Hp He Hmax.
  pose proof (digits2_pos_log2 p) as Hd.
  pose proof (Z.log2_nonneg (Zpos p)) as Hl.
  assert (Hlt : Z.log2 (Zpos p) < 53) by (apply Z.log2_lt_pow2; lia).
  set (L := Z.log2 (Zpos p)) in *.
  unfold F64.of_scaled, binary_normalize, binary_round, shl_align, fexp, emin,
    F64.prec, F64.emax.
  rewrite Hd.
  replace (Z.max (L + 1 + e - 53) (3 - 1024 - 53) - e) with (L - 52) by lia.
  destruct (L - 52) as [|k|k] eqn:Hk; try lia.
  - exists p. replace (L + e - 52) with e by lia.
    rewrite round_aux_53 by lia.
    replace (e <=? 971) with true by lia.
    split; [reflexivity|]. replace (52 - L) with 0 by lia. lia.
  - exists (Pos.iter xO p k).
    pose proof (digits_iter_xO p k) as Hi.
    replace (Z.max (L + 1 + e - 53) (3 - 1024 - 53)) with (L + e - 52) by lia.
    rewrite round_aux_53 by lia.
    replace (L + e - 52 <=? 971) with true by lia.
    split; [reflexivity|].
    rewrite pos_iter_xO. replace (52 - L) with (Zpos k) by lia. reflexivity.
Qed.

Lemma round_half_even_scale c a b :
  0 < c -> 0 < b ->
  round_half_even (c * a) (c * b) = round_half_even a b.
Proof.
  intros Hc Hb. unfold round_half_even.
  rewrite Z.div_mul_cancel_l by lia.
  rewrite Z.mul_mod_distr_l by lia.
  replace (2 * (c * (a mod b))) with (c * (2 * (a mod b))) by lia.
  replace (c * (2 * (a mod b)) ?= c * b) with (2 * (a mod b) ?= b); [reflexivity|].
  destruct (Z.compare_spec (2 * (a mod b)) b),
           (Z.compare_spec (c * (2 * (a mod b))) (c * b));
    try reflexivity; nia.
Qed.

Lemma round_half_even_exact a b :
  0 < b -> round_half_even (a * b) b = a.
Proof.
  intros Hb. unfold round_half_even.
  assert (Hq : a * b / b = a) by (apply Z.div_mul; lia).
  assert (Hr : (a * b) mod b = 0) by (apply Z.mod_mul; lia).
  rewrite Hq, Hr. change (2 * 0) with 0.
  destruct (Z.compare_spec 0 b); try lia; reflexivity.
Qed.

Lemma hundredths_neg m e :
  e < 0 -> hundredths m e = round_half_even (100 * Zpos m) (2 ^ (- e)).
Proof.
  intros He. destruct e as [|e|e]; try lia.
  unfold hundredths. f_equal.
  change (Pos.shiftl 1 (Npos e)) with (Pos.iter xO 1%positive e).
  rewrite pos_iter_xO. cbn [Z.opp]. lia.
Qed.

(** The hundredths printed for [x * 2^(-s)] when [x] is below 2^53. *)
Lemma hundredths_of_scaled p s :
  Zpos p < 2 ^ 53 -> 0 <= s <= 1022 ->
  exists m e,
    F64.of_scaled (Zpos p) (- s) = S754_finite false m e /\
    hundredths m e = round_half_even (100 * Zpos p) (2 ^ s).
Proof.
  intros Hp Hs.
  pose proof (Z.log2_nonneg (Zpos p)) as Hl.
  assert (Hlt : Z.log2 (Zpos p) < 53) by (apply Z.log2_lt_pow2; lia).
  destruct (of_scaled_exact p (- s) Hp ltac:(lia) ltac:(lia)) as (m & Hof & Hm).
  exists m, (Z.log2 (Zpos p) + - s - 52). split; [exact Hof|].
  set (L := Z.log2 (Zpos p)) in *.
  destruct (Z.eq_dec (L + - s - 52) 0) as [Hz|Hnz].
  - assert (L = 52 /\ s = 0) as [HL ->] by lia.
    rewrite Hz. unfold hundredths. rewrite Hm, HL.
    change (2 ^ (52 - 52)) with 1. change (2 ^ 0) with 1.
    transitivity (100 * Zpos p); [lia|]. symmetry.
    pose proof (round_half_even_exact (100 * Zpos p) 1 ltac:(lia)) as Hx.
    rewrite Z.mul_1_r in Hx. exact Hx.
  - rewrite hundredths_neg by lia. rewrite Hm.
    replace (- (L + - s - 52)) with ((52 - L) + s) by lia.
    rewrite Z.pow_add_r by lia.
    replace (100 * (Zpos p * 2 ^ (52 - L)))
      with (2 ^ (52 - L) * (100 * Zpos p)) by lia.
    apply round_half_even_scale; lia.
Qed.

Lemma format_2f_finite s m e :
  format_2f (S754_finite s m e) = sign_string s ++ hundredths_text (hundredths m e).
Proof. reflexivity. Qed.

Lemma two_53_below_threshold : 2 ^ 53 < overflow_threshold.
Proof. reflexivity. Qed.

Lemma format_size_below_2_53 x :
  0 < x < 2 ^ 53 ->
  format_size (JInt x)
  = OK (hundredths_text (scaled_hundredths x (unit_index x))
        ++ " " ++ nth (unit_index x) size_names EmptyString).
Proof.
  intros [H0 Hx].
  pose proof two_53_below_threshold as Ht.
  rewrite format_size_closed_form by lia.
  destruct x as [|p|p]; try lia.
  pose proof (unit_index_le (Zpos p)) as Hi.
  destruct (hundredths_of_scaled p (10 * Z.of_nat (unit_index (Zpos p))) Hx
              ltac:(lia)) as (m & e & -> & Hh).
  rewrite format_2f_finite, Hh. unfold scaled_hundredths.
  rewrite Z.pow_mul_r by lia. reflexivity.
Qed.

(** X2: below 2^53 the number printed is the quotient of the byte count by
    1024^i rounded once, to the nearest hundredth, ties to even: the
    repeated float division loses nothing. *)
Theorem format_size_exact (x : Z) (Hx : 0 < x < 2 ^ 53) :
  exists i h,
    i = Z.to_nat (Z.min 4 (Z.log2 x / 10)) /\
    h = round_half_even (100 * x) (1024 ^ Z.of_nat i) /\
    format_size (JInt x)
    = OK (string_of_N (Z.to_N h / 100) ++ "." ++ two_digits (Z.to_N h mod 100)
          ++ " " ++ nth i size_names EmptyString).
Proof.
  exists (unit_index x), (scaled_hundredths x (unit_index x)).
  split; [reflexivity|]. split; [reflexivity|].
  rewrite (format_size_below_2_53 x Hx). unfold hundredths_text.
  rewrite !append_assoc. reflexivity.
Qed.

Lemma format_size_exact_witness :
  0 < 1024567 < 2 ^ 53 /\
  round_half_even (100 * 1024567) (1024 ^ 1) = 100055 /\
  format_size (JInt 1024567) = OK "1000.55 KB".
Proof.
  split; [split; reflexivity|]. split; [reflexivity|].
  destruct (format_size_exact 1024567 (conj eq_refl eq_refl))
    as (i & h & -> & -> & Hf).
  exact Hf.
Defined.

Lemma unit_index_multiple k i :
  1 <= k < 1024 -> (i <= 4)%nat ->
  unit_index (k * 1024 ^ Z.of_nat i) = i.
Proof.
  intros Hk Hi. unfold unit_index.
  change 1024 with (2 ^ 10) at 1. rewrite <- Z.pow_mul_r by lia.
  rewrite Z.log2_mul_pow2 by lia.
  assert (Hlog : 0 <= Z.log2 k < 10).
  { split; [apply Z.log2_nonneg|apply Z.log2_lt_pow2; lia]. }
  replace (10 * Z.of_nat i + Z.log2 k) with (Z.log2 k + Z.of_nat i * 10) by lia.
  rewrite Z.div_add by lia. rewrite Z.div_small by lia.
  rewrite Z.min_r by lia. cbn [Z.add]. apply Nat2Z.id.
Qed.

Lemma hundredths_text_whole k :
  0 <= k -> hundredths_text (k * 100) = string_of_N (Z.to_N k) ++ ".00".
Proof.
  intros Hk. unfold hundredths_text.
  rewrite Z2N.inj_mul by lia. change (Z.to_N 100) with 100%N.
  rewrite N.div_mul by discriminate. rewrite N.Div0.mod_mul. reflexivity.
Qed.

(** X3: a whole multiple [k] of a unit, [1 <= k < 1024], is printed as
    [k.00] and that unit. *)
Theorem format_size_whole_multiple (k : Z) (i : nat)
    (Hk : 1 <= k < 1024) (Hi : (i <= 4)%nat) :
  format_size (JInt (k * 1024 ^ Z.of_nat i))
  = OK (string_of_N (Z.to_N k) ++ ".00 " ++ nth i size_names EmptyString).
Proof.
  assert (Hpow : 0 < 1024 ^ Z.of_nat i <= 1024 ^ 4).
  { split; [apply Z.pow_pos_nonneg; lia|apply Z.pow_le_mono_r; lia]. }
  assert (Hx : 0 < k * 1024 ^ Z.of_nat i < 2 ^ 53).
  { change (1024 ^ 4) with 1099511627776 in Hpow.
    change (2 ^ 53) with 9007199254740992. nia. }
  rewrite (format_size_below_2_53 _ Hx).
  rewrite (unit_index_multiple k i Hk Hi).
  unfold scaled_hundredths.
  replace (100 * (k * 1024 ^ Z.of_nat i)) with (k * 100 * 1024 ^ Z.of_nat i) by lia.
  rewrite round_half_even_exact by lia.
  rewrite hundredths_text_whole by lia.
  rewrite append_assoc. reflexivity.
Qed.

Lemma format_size_whole_multiple_witness :
  1 <= 512 < 1024 /\ (3 <= 4)%nat /\
  format_size (JInt (512 * 1024 ^ 3)) = OK "512.00 GB".
Proof.
  split; [split; [discriminate|reflexivity]|]. split; [lia|].
  apply (format_size_whole_multiple 512 3); [split; [discriminate|reflexivity]|lia].
Defined.

(** X4: a negative integer is never scaled: below 2^53 in magnitude it is
    printed with its sign, two zero decimals and the unit B. *)
Theorem format_size_negative (x : Z) (Hx : 0 < x < 2 ^ 53) :
  format_size (JInt (- x)) = OK ("-" ++ string_of_N (Z.to_N x) ++ ".00 B").
Proof.
  destruct Hx as [H0 Hx]. destruct x as [|p|p]; try lia.
  cbn [Z.opp]. unfold format_size. cbn [eq_zero Z.eqb].
  change (List.length size_names - 1)%nat with 4%nat.
  rewrite advance_step. cbn [ge_1024 Z.leb Z.compare bind].
  cbn [format_value_2f]. unfold float_of_scaled. cbn [Z.opp].
  rewrite of_scaled_neg.
  destruct (hundredths_of_scaled p 0 Hx ltac:(lia)) as (m & e & Hof & Hh).
  cbn [Z.opp] in Hof. rewrite Hof. cbn [SFopp negb F64.is_infinity bind].
  rewrite format_2f_finite, Hh.
  change (2 ^ 0) with 1.
  pose proof (round_half_even_exact (100 * Zpos p) 1 ltac:(lia)) as Hr.
  rewrite Z.mul_1_r in Hr. rewrite Hr.
  replace (100 * Zpos p) with (Zpos p * 100) by lia.
  rewrite hundredths_text_whole by lia.
  cbn [index_name nth_error size_names bind sign_string].
  rewrite !append_assoc. reflexivity.
Qed.

Lemma format_size_negative_witness :
  0 < 5 < 2 ^ 53 /\ format_size (JInt (- 5)) = OK "-5.00 B".
Proof.
  split; [split; reflexivity|].
  exact (format_size_negative 5 (conj eq_refl eq_refl)).
Defined.

Lemma unit_index_mono x y :
  0 < x <= y -> (unit_index x <= unit_index y)%nat.
Proof.
  intros [H0 Hxy]. unfold unit_index.
  apply Z2Nat.inj_le.
  - apply Z.min_glb; [lia|]. apply Z.div_pos; [apply Z.log2_nonneg|lia].
  - apply Z.min_glb; [lia|]. apply Z.div_pos; [apply Z.log2_nonneg|lia].
  - apply Z.min_le_compat_l. apply Z.div_le_mono; [lia|].
    apply Z.log2_le_mono. exact Hxy.
Qed.

(** X5: the unit grows with the byte count: a larger count is never given
    an earlier unit of B, KB, MB, GB, TB. *)
Theorem format_size_unit_monotone (x y : Z)
    (Hx : 0 < x) (Hxy : x <= y) (Hy : y < overflow_threshold) :
  exists i j digits_x digits_y,
    format_size (JInt x) = OK (digits_x ++ " " ++ nth i size_names EmptyString) /\
    format_size (JInt y) = OK (digits_y ++ " " ++ nth j size_names EmptyString) /\
    (i <= j <= 4)%nat.
Proof.
  exists (unit_index x), (unit_index y).
  eexists _, _.
  split; [apply format_size_closed_form; lia|].
  split; [apply format_size_closed_form; lia|].
  split; [apply unit_index_mono; lia|apply unit_index_le].
Qed.

Lemma format_size_unit_monotone_witness :
  0 < 1023 /\ 1023 <= 1024 /\ 1024 < overflow_threshold /\
  exists i j digits_x digits_y,
    format_size (JInt 1023) = OK (digits_x ++ " " ++ nth i size_names EmptyString) /\
    format_size (JInt 1024) = OK (digits_y ++ " " ++ nth j size_names EmptyString) /\
    (i <= j <= 4)%nat.
Proof.
  split; [reflexivity|]. split; [discriminate|]. split; [reflexivity|].
  exact (format_size_unit_monotone 1023 1024 eq_refl ltac:(discriminate) eq_refl).
Defined.

Lemma round_half_even_bounds a b :
  a / b <= round_half_even a b <= a / b + 1.
Proof.
  unfold round_half_even.
  destruct (2 * (a mod b) ?= b); [destruct (Z.even (a / b))| |]; lia.
Qed.

Lemma unit_index_bracket x :
  0 < x < 1024 ^ 4 ->
  1024 ^ Z.of_nat (unit_index x) <= x < 1024 ^ (Z.of_nat (unit_index x) + 1).
Proof.
  intros [H0 Hx]. unfold unit_index.
  pose proof (Z.log2_spec x H0) as [Hlo Hhi].
  pose proof (Z.log2_nonneg x) as Hnn.
  assert (HL : Z.log2 x < 40) by (apply Z.log2_lt_pow2; [lia|exact Hx]).
  pose proof (Z.div_mod (Z.log2 x) 10 ltac:(lia)) as Hdm.
  pose proof (Z.mod_pos_bound (Z.log2 x) 10 ltac:(lia)) as Hmb.
  set (L := Z.log2 x) in *. set (q := L / 10) in *.
  assert (Hq : 0 <= q < 4) by lia.
  rewrite Z.min_r by lia. rewrite Z2Nat.id by lia.
  change 1024 with (2 ^ 10). rewrite <- !Z.pow_mul_r by lia.
  split.
  - apply Z.le_trans with (2 ^ L); [apply Z.pow_le_mono_r; lia|exact Hlo].
  - apply Z.lt_le_trans with (2 ^ Z.succ L); [exact Hhi|apply Z.pow_le_mono_r; lia].
Qed.

(** X6: below 1 TB the number printed lies between 1.00 and 1024.00, and
    1024.00 is reached under a unit smaller than TB: 1048575 bytes are
    printed as "1024.00 KB". *)
Theorem printed_value_range (x : Z) (Hx : 0 < x < 1024 ^ 4) :
  exists h unit,
    100 <= h <= 102400 /\
    In unit ["B"; "KB"; "MB"; "GB"] /\
    format_size (JInt x)
    = OK (string_of_N (Z.to_N h / 100) ++ "." ++ two_digits (Z.to_N h mod 100)
          ++ " " ++ unit) /\
    format_size (JInt 1048575) = OK "1024.00 KB".
Proof.
  pose proof (unit_index_bracket x Hx) as [Hlo Hhi].
  assert (Hx53 : 0 < x < 2 ^ 53).
  { split; [lia|]. apply Z.lt_trans with (1024 ^ 4); [lia|reflexivity]. }
  exists (scaled_hundredths x (unit_index x)),
         (nth (unit_index x) size_names EmptyString).
  split; [|split; [|split]].
  - unfold scaled_hundredths.
    set (d := 1024 ^ Z.of_nat (unit_index x)) in *.
    assert (Hd : 0 < d) by (apply Z.pow_pos_nonneg; lia).
    rewrite Z.pow_add_r in Hhi by lia. fold d in Hhi. change (1024 ^ 1) with 1024 in Hhi.
    pose proof (round_half_even_bounds (100 * x) d) as Hb.
    assert (100 <= 100 * x / d) by (apply Z.div_le_lower_bound; lia).
    assert (100 * x / d < 102400) by (apply Z.div_lt_upper_bound; lia).
    lia.
  - assert (Hi : (unit_index x < 4)%nat).
    { destruct (Nat.lt_ge_cases (unit_index x) 4) as [H|H]; [exact H|].
      exfalso. pose proof (unit_index_le x).
      assert (E : unit_index x = 4%nat) by lia. rewrite E in Hlo.
      change (1024 ^ Z.of_nat 4) with (1024 ^ 4) in Hlo. lia. }
    destruct (unit_index x) as [|[|[|[|i]]]]; try lia; simpl; auto.
  - rewrite (format_size_below_2_53 x Hx53). unfold hundredths_text.
    rewrite !append_assoc. reflexivity.
  - vm_compute. reflexivity.
Qed.

Lemma printed_value_range_witness :
  0 < 1048575 < 1024 ^ 4 /\
  exists h unit,
    100 <= h <= 102400 /\
    In unit ["B"; "KB"; "MB"; "GB"] /\
    format_size (JInt 1048575)
    = OK (string_of_N (Z.to_N h / 100) ++ "." ++ two_digits (Z.to_N h mod 100)
          ++ " " ++ unit) /\
    format_size (JInt 1048575) = OK "1024.00 KB".
Proof.
  split; [split; reflexivity|].
  exact (printed_value_range 1048575 (conj eq_refl eq_refl)).
Defined.

(** ** Categories *)

(** X7: [categorize_file] returns one of seven names, whatever the
    extension. *)
Theorem categorize_file_range {U : unicode} (extension : string) :
  In (categorize_file extension)
     ["resume"; "image"; "data"; "archive"; "video"; "audio"; "other"].
Proof.
  unfold categorize_file, categories. cbn [scan].
  repeat match goal with
         | |- context [mem ?x ?l] => destruct (mem x l)
         end; simpl; auto 10.
Qed.

Lemma categories_disjoint x c1 e1 c2 e2 :
  In (c1, e1) categories -> In (c2, e2) categories ->
  In x e1 -> In x e2 -> c1 = c2.
Proof.
  intros H1 H2 Hx1 Hx2. simpl in H1, H2.
  repeat (destruct H1 as [H1|H1]; [injection H1 as <- <-|]); try contradiction;
  repeat (destruct H2 as [H2|H2]; [injection H2 as <- <-|]); try contradiction;
  try reflexivity; exfalso;
  simpl in Hx1; repeat (destruct Hx1 as [<-|Hx1]; [|]); try contradiction;
  simpl in Hx2; repeat (destruct Hx2 as [Hx2|Hx2]; [discriminate Hx2|]);
  contradiction.
Qed.

Lemma categories_names c e : In (c, e) categories -> c <> "other".
Proof.
  intros H. simpl in H.
  repeat (destruct H as [H|H]; [injection H as <- <-; discriminate|]).
  contradiction.
Qed.

Lemma categories_functional c e e' :
  In (c, e) categories -> In (c, e') categories -> e = e'.
Proof.
  intros H H'. simpl in H, H'.
  repeat (destruct H as [H|H]; [injection H as <- <-|]); try contradiction;
  repeat (destruct H' as [H'|H'];
          [try discriminate H'; injection H' as <-; try reflexivity|]);
  try contradiction.
Qed.

Lemma scan_some_in {U : unicode} extension c :
  scan extension categories = Some c ->
  exists e, In (c, e) categories /\ In (lower extension) e.
Proof.
  intros H. apply scan_first_match in H.
  destruct H as (before & e & after & Heq & Hmem & _).
  exists e. split; [rewrite Heq; apply in_elt|apply mem_In; exact Hmem].
Qed.

Lemma scan_none_in {U : unicode} extension c e :
  scan extension categories = None ->
  In (c, e) categories -> ~ In (lower extension) e.
Proof.
  intros Hs Hcat Hx. apply scan_none in Hs. rewrite Forall_forall in Hs.
  specialize (Hs _ Hcat). simpl in Hs. apply mem_In in Hx. congruence.
Qed.

Lemma categorize_file_member {U : unicode} extension category extensions :
  In (category, extensions) categories ->
  In (lower extension) extensions ->
  categorize_file extension = category.
Proof.
  intros Hcat Hx. unfold categorize_file.
  destruct (scan extension categories) as [c|] eqn:Hs.
  - destruct (scan_some_in _ _ Hs) as (e & Hin & Hx').
    exact (categories_disjoint _ _ _ _ _ Hin Hcat Hx' Hx).
  - exfalso. exact (scan_none_in _ _ _ Hs Hcat Hx).
Qed.

(** X8: the lists of the table are disjoint, so the order of the table does
    not matter: the category is the one whose list holds the lower-cased
    extension, and it is "other" exactly when no list holds it. *)
Theorem categorize_file_iff {U : unicode} (extension : string) :
  (forall category extensions,
     In (category, extensions) categories ->
     (categorize_file extension = category <-> In (lower extension) extensions)) /\
  (categorize_file extension = "other" <->
   forall category extensions,
     In (category, extensions) categories -> ~ In (lower extension) extensions).
Proof.
  unfold categorize_file.
  destruct (scan extension categories) as [c|] eqn:Hs.
  - destruct (scan_some_in _ _ Hs) as (e & Hin & Hx).
    split.
    + intros category extensions Hcat. split.
      * intros <-. rewrite (categories_functional _ _ _ Hcat Hin). exact Hx.
      * intros Hx'. exact (categories_disjoint _ _ _ _ _ Hin Hcat Hx Hx').
    + split.
      * intros H. exfalso. exact (categories_names _ _ Hin H).
      * intros Hnone. exfalso. exact (Hnone _ _ Hin Hx).
  - split.
    + intros category extensions Hcat. split.
      * intros H. exfalso. exact (categories_names _ _ Hcat (eq_sym H)).
      * intros Hx. exfalso. exact (scan_none_in _ _ _ Hs Hcat Hx).
    + split; [|reflexivity].
      intros _ category extensions Hcat. exact (scan_none_in _ _ _ Hs Hcat).
Qed.

(** An archive extension in capitals, and a double extension that no list
    holds. *)
Lemma categorize_file_iff_witness :
  (categorize_file "TAR" = "archive"
   <-> In (lower "TAR") ["zip"; "tar"; "gz"; "rar"; "7z"]) /\
  categorize_file "TAR" = "archive" /\
  (categorize_file "tar.gz" = "other" <->
   forall category extensions,
     In (category, extensions) categories -> ~ In (lower "tar.gz") extensions).
Proof.
  destruct (categorize_file_iff "TAR") as [Hlisted _].
  destruct (categorize_file_iff "tar.gz") as [_ Hother].
  assert (Harchive : In ("archive", ["zip"; "tar"; "gz"; "rar"; "7z"]) categories)
    by (simpl; tauto).
  split; [exact (Hlisted _ _ Harchive)|].
  split; [apply (Hlisted _ _ Harchive); simpl; tauto|exact Hother].
Defined.

(** ** Extensions *)

Lemma last_cons_nonempty (x : string) l d : l <> [] -> last (x :: l) d = last l d.
Proof. destruct l; [contradiction|reflexivity]. Qed.

Lemma last_split_no_sep sep s :
  has_char sep (last (split sep s) EmptyString) = false.
Proof.
  induction s as [|c s IH]; [reflexivity|].
  cbn [split]. destruct (Ascii.eqb c sep) eqn:Hc.
  - rewrite last_cons_nonempty by apply split_not_nil. exact IH.
  - destruct (split sep s) as [|piece pieces] eqn:Hs.
    + exfalso. exact (split_not_nil sep s Hs).
    + destruct pieces as [|next pieces].
      * cbn [last] in *. cbn [has_char]. rewrite Hc, IH. reflexivity.
      * exact IH.
Qed.

(** X9: whatever the key, an extension that is computed holds no '.' and is
    already in lower case. *)
Theorem file_extension_normal {U : unicode} (key : json) (extension : string)
    (Hext : file_extension key = OK extension) :
  has_char dot extension = false /\ lower extension = extension.
Proof.
  destruct key as [| | | |s|items|fields]; try discriminate.
  - rewrite file_extension_str in Hext. injection Hext as <-.
    unfold key_extension.
    destruct (has_char dot s); [|split; [reflexivity|exact lower_unknown]].
    split; [|apply lower_idempotent].
    rewrite has_char_lower. apply last_split_no_sep.
  - unfold file_extension in Hext. cbn [contains_dot bind] in Hext.
    destruct (existsb _ items); [discriminate|].
    injection Hext as <-. split; [reflexivity|exact lower_unknown].
  - unfold file_extension in Hext. cbn [contains_dot bind] in Hext.
    destruct (lookup "." fields); [discriminate|].
    injection Hext as <-. split; [reflexivity|exact lower_unknown].
Qed.

Lemma file_extension_normal_witness :
  file_extension (JStr "backup.2024.TAR.GZ") = OK "gz" /\
  has_char dot "gz" = false /\ lower "gz" = "gz".
Proof.
  split; [reflexivity|].
  exact (file_extension_normal (JStr "backup.2024.TAR.GZ") "gz" eq_refl).
Defined.

(** ** The entry of a record that does not raise *)

Lemma bind_ok {A B : Type} (r : result A) (k : A -> result B) b :
  bind r k = OK b -> exists a, r = OK a /\ k a = OK b.
Proof. destruct r as [a|e]; [eauto|discriminate]. Qed.

Lemma dict_get_leaf d k1 k2 x c v :
  dict_get d k1 (JDict []) = OK c ->
  dict_get c k2 x = OK v ->
  v = field_or [k1; k2] x d.
Proof.
  destruct d as [| | | | | |fields]; try discriminate.
  rewrite dict_get_dict. intros Hc. injection Hc as <-.
  unfold field_or. cbn [at_path].
  destruct (lookup k1 fields) as [c|].
  - destruct c as [| | | | | |inner]; try discriminate.
    rewrite dict_get_dict. intros Hv. injection Hv as <-.
    destruct (lookup k2 inner); reflexivity.
  - rewrite dict_get_dict. intros Hv. injection Hv as <-. reflexivity.
Qed.

Lemma dict_get_leaf3 d k1 k2 k3 x c1 c2 v :
  dict_get d k1 (JDict []) = OK c1 ->
  dict_get c1 k2 (JDict []) = OK c2 ->
  dict_get c2 k3 x = OK v ->
  v = field_or [k1; k2; k3] x d.
Proof.
  destruct d as [| | | | | |fields]; try discriminate.
  rewrite dict_get_dict. intros Hc. injection Hc as <-.
  unfold field_or. cbn [at_path].
  destruct (lookup k1 fields) as [c|].
  - intros H2 H3. rewrite (dict_get_leaf c k2 k3 x c2 v H2 H3).
    unfold field_or. cbn [at_path].
    destruct c; try discriminate. reflexivity.
  - rewrite dict_get_dict. cbn [lookup]. intros Hc. injection Hc as <-.
    rewrite dict_get_dict. intros Hv. injection Hv as <-. reflexivity.
Qed.

Lemma file_extension_category {U : unicode} key extension :
  file_extension key = OK extension ->
  categorize_file extension = key_category key.
Proof.
  destruct key as [| | | |s|items|fields]; try discriminate.
  - rewrite file_extension_str. intros H. injection H as <-. reflexivity.
  - unfold file_extension. cbn [contains_dot bind].
    destruct (existsb _ items); [discriminate|].
    intros H. injection H as <-. exact categorize_file_unknown.
  - unfold file_extension. cbn [contains_dot bind].
    destruct (lookup "." fields); [discriminate|].
    intros H. injection H as <-. exact categorize_file_unknown.
Qed.

Lemma record_entry_ok {U : unicode} record entry :
  record_entry record = OK entry -> entry = entry_for record.
Proof.
  unfold record_entry. intros H.
  apply bind_ok in H. destruct H as (s3_info & Hs3 & H).
  apply bind_ok in H. destruct H as (bucket_dict & Hbucket & H).
  apply bind_ok in H. destruct H as (bucket_name & Hname & H).
  apply bind_ok in H. destruct H as (object_dict & Hobject & H).
  apply bind_ok in H. destruct H as (key & Hkey & H).
  apply bind_ok in H. destruct H as (object_size & _ & H).
  apply bind_ok in H. destruct H as (readable & _ & H).
  apply bind_ok in H. destruct H as (request_parameters & _ & H).
  apply bind_ok in H. destruct H as (source & _ & H).
  apply bind_ok in H. destruct H as (identity & _ & H).
  apply bind_ok in H. destruct H as (principal & _ & H).
  apply bind_ok in H. destruct H as (extension & Hext & H).
  injection H as <-.
  rewrite (file_extension_category _ _ Hext).
  rewrite (dict_get_leaf3 _ _ _ _ _ _ _ _ Hs3 Hbucket Hname).
  rewrite (dict_get_leaf3 _ _ _ _ _ _ _ _ Hs3 Hobject Hkey).
  reflexivity.
Qed.

(** X10: whenever the loop body does not raise, the entry it appends carries
    the bucket name and the key found in the record, "Unknown" for each
    that is missing, and the category of the key; this holds for every
    record, well formed or not. *)
Theorem processed_entry_of_record {U : unicode} env now (record entry : json)
    (Hok : snd (process_record env now record) = OK entry) :
  entry
  = JDict [("bucket", field_or ["s3"; "bucket"; "name"] (JStr "Unknown") record);
           ("key", field_or ["s3"; "object"; "key"] (JStr "Unknown") record);
           ("category",
            JStr (key_category
                    (field_or ["s3"; "object"; "key"] (JStr "Unknown") record)))].
Proof.
  rewrite process_record_entry in Hok. exact (record_entry_ok record entry Hok).
Qed.

Lemma processed_entry_of_record_witness :
  snd (process_record default_environ EmptyString odd_record)
  = OK (JDict [("bucket", JInt 7); ("key", JList [JStr "a.pdf"]);
               ("category", JStr "other")]) /\
  JDict [("bucket", JInt 7); ("key", JList [JStr "a.pdf"]);
         ("category", JStr "other")]
  = JDict [("bucket", field_or ["s3"; "bucket"; "name"] (JStr "Unknown") odd_record);
           ("key", field_or ["s3"; "object"; "key"] (JStr "Unknown") odd_record);
           ("category",
            JStr (key_category
                    (field_or ["s3"; "object"; "key"] (JStr "Unknown") odd_record)))].
Proof.
  split; [reflexivity|].
  exact (processed_entry_of_record default_environ EmptyString odd_record _ eq_refl).
Defined.

(** ** Batches with any number of records that raise *)

Lemma raises_record_entry {U : unicode} record :
  raises record = match record_entry record with OK _ => false | Raise _ => true end.
Proof. unfold raises. rewrite process_record_entry. reflexivity. Qed.

Lemma raises_process_record {U : unicode} env now record :
  raises record
  = match snd (process_record env now record) with OK _ => false | Raise _ => true end.
Proof. rewrite raises_record_entry, process_record_entry. reflexivity. Qed.

Lemma kept_filter {U : unicode} records :
  kept records = map entry_for (filter (fun r => negb (raises r)) records).
Proof.
  induction records as [|record rest IH]; [reflexivity|].
  cbn [kept filter]. rewrite raises_record_entry.
  destruct (record_entry record) as [entry|e] eqn:He; cbn [negb].
  - cbn [map]. rewrite (record_entry_ok _ _ He), IH. reflexivity.
  - exact IH.
Qed.

Lemma handler_on_records {U : unicode} env clock event records :
  is_dict event = true ->
  iterate (field_or ["Records"] (JList []) event) = OK records ->
  snd (lambda_handler env clock event) = OK (make_response (kept records)).
Proof.
  intros Hevent Hrecords. rewrite lambda_handler_response.
  rewrite (dict_get_field_or event "Records" (JList []) Hevent). cbn [bind].
  rewrite Hrecords. reflexivity.
Qed.

(** X11: for every batch, with any number of records that raise, [details]
    holds the entries of exactly the records that do not raise, in the
    order of the batch, and [records_processed] is their number. *)
Theorem details_of_any_batch {U : unicode} env clock event records
    (Hevent : is_dict event = true)
    (Hrecords : iterate (field_or ["Records"] (JList []) event) = OK records) :
  exists r,
    snd (lambda_handler env clock event) = OK r /\
    body_field "details" r
    = Some (JList (map entry_for (filter (fun r => negb (raises r)) records))) /\
    body_field "records_processed" r
    = Some (JInt (Z.of_nat (List.length (filter (fun r => negb (raises r)) records)))).
Proof.
  exists (make_response (kept records)).
  split; [exact (handler_on_records env clock event records Hevent Hrecords)|].
  unfold body_field, make_response. cbn.
  rewrite kept_filter, length_map. split; reflexivity.
Qed.

Lemma details_of_any_batch_witness :
  is_dict mixed_batch = true /\
  exists r,
    snd (lambda_handler default_environ (fun _ => EmptyString) mixed_batch) = OK r /\
    body_field "details" r = Some (JList [entry_for (JDict [])]) /\
    body_field "records_processed" r = Some (JInt 1).
Proof.
  split; [reflexivity|].
  exact (details_of_any_batch default_environ (fun _ => EmptyString) mixed_batch _
           eq_refl eq_refl).
Defined.

Lemma filter_length_all {A : Type} (f : A -> bool) l :
  List.length (filter f l) = List.length l <-> forallb f l = true.
Proof.
  induction l as [|x l IH]; simpl; [tauto|].
  pose proof (filter_length_le f l) as Hle.
  destruct (f x); simpl.
  - rewrite <- IH. lia.
  - split; [lia|discriminate].
Qed.

(** X12: [records_processed] never exceeds the number of records of the
    batch, and equals it exactly when no record raises. *)
Theorem all_processed_iff {U : unicode} env clock event records
    (Hevent : is_dict event = true)
    (Hrecords : iterate (field_or ["Records"] (JList []) event) = OK records) :
  exists r n,
    snd (lambda_handler env clock event) = OK r /\
    body_field "records_processed" r = Some (JInt (Z.of_nat n)) /\
    (n <= List.length records)%nat /\
    (n = List.length records <->
     forall record now, In record records ->
       exists entry, snd (process_record env now record) = OK entry).
Proof.
  exists (make_response (kept records)), (List.length (kept records)).
  split; [exact (handler_on_records env clock event records Hevent Hrecords)|].
  split; [reflexivity|]. split; [apply kept_length|].
  rewrite kept_filter, length_map, filter_length_all, forallb_forall.
  split.
  - intros H record now Hin. specialize (H record Hin).
    rewrite (raises_process_record env now) in H.
    destruct (snd (process_record env now record)); [eauto|discriminate].
  - intros H record Hin. rewrite (raises_process_record env EmptyString).
    destruct (H record EmptyString Hin) as [entry ->]. reflexivity.
Qed.

Lemma all_processed_iff_witness :
  is_dict mixed_batch = true /\
  exists r n,
    snd (lambda_handler default_environ (fun _ => EmptyString) mixed_batch) = OK r /\
    body_field "records_processed" r = Some (JInt (Z.of_nat n)) /\
    (n <= 3)%nat /\
    (n = 3%nat <->
     forall record now,
       In record [JDict []; JInt 4;
                  JDict [("s3", JDict [("object", JDict [("size", JStr "big")])])]] ->
       exists entry,
         snd (process_record default_environ now record) = OK entry).
Proof.
  split; [reflexivity|].
  exact (all_processed_iff default_environ (fun _ => EmptyString) mixed_batch _
           eq_refl eq_refl).
Defined.

(** ** What the log tells about the records that raise *)

Lemma errors_logged_app a b :
  errors_logged (a ++ b) = (errors_logged a + errors_logged b)%nat.
Proof. unfold errors_logged. rewrite filter_app, length_app. reflexivity. Qed.

Lemma process_record_errors {U : unicode} env now record :
  errors_logged (fst (process_record env now record))
  = match snd (process_record env now record) with
    | OK _ => 0%nat
    | Raise _ => 2%nat
    end.
Proof.
  unfold process_record.
  destruct (extract env now record) as [entry|e]; [|reflexivity].
  destruct (file_extension (object_key entry)) as [extension|e]; reflexivity.
Qed.

Lemma process_records_errors {U : unicode} env clock records :
  forall k acc,
    (errors_logged (fst (process_records env clock k records acc))
     + 2 * List.length (kept records) = 2 * List.length records)%nat.
Proof.
  induction records as [|record rest IH]; intros k acc; [reflexivity|].
  cbn [process_records kept].
  pose proof (process_record_errors env (clock k) record) as Herr.
  pose proof (process_record_entry env (clock k) record) as Hentry.
  destruct (process_record env (clock k) record) as [lines outcome].
  cbn [fst snd] in Herr, Hentry. subst outcome.
  destruct (record_entry record) as [entry|e].
  - specialize (IH (S k) (acc ++ [entry])%list).
    destruct (process_records env clock (S k) rest (acc ++ [entry])%list)
      as [lines' final].
    cbn [fst] in *. rewrite errors_logged_app. cbn [List.length]. lia.
  - specialize (IH (S k) acc).
    destruct (process_records env clock (S k) rest acc) as [lines' final].
    cbn [fst] in *. rewrite errors_logged_app. cbn [List.length]. lia.
Qed.

(** X13: the log counts the failures the response hides: it holds exactly two
    ERROR lines for each record of the batch that is missing from
    [records_processed]. *)
Theorem errors_logged_twice_the_failures {U : unicode} env clock event records
    (Hevent : is_dict event = true)
    (Hrecords : iterate (field_or ["Records"] (JList []) event) = OK records) :
  exists lines r n,
    lambda_handler env clock event = (lines, OK r) /\
    body_field "records_processed" r = Some (JInt (Z.of_nat n)) /\
    (errors_logged lines + 2 * n = 2 * List.length records)%nat.
Proof.
  pose proof (dict_get_field_or event "Records" (JList []) Hevent) as Hget.
  unfold lambda_handler. rewrite Hget, Hrecords.
  pose proof (process_records_errors env clock records 0 []) as Herr.
  pose proof (process_records_kept env clock records 0 []) as Hkept.
  destruct (process_records env clock 0 records []) as [lines processed].
  cbn [fst snd app] in Herr, Hkept. subst processed.
  eexists _, _, (List.length (kept records)).
  split; [reflexivity|]. split; [reflexivity|].
  rewrite !errors_logged_app. cbn [errors_logged filter is_error_line fst info
                                   List.length].
  change (errors_logged
            [info [Text "["; Text (project_name env);
                   Text "] S3 Upload Event Received"];
             info [Text "Full Event: "; Dumped (json_dumps event)]]) with 0%nat.
  lia.
Qed.

Lemma errors_logged_twice_the_failures_witness :
  is_dict mixed_batch = true /\
  exists lines r n,
    lambda_handler default_environ (fun _ => EmptyString) mixed_batch
    = (lines, OK r) /\
    body_field "records_processed" r = Some (JInt (Z.of_nat n)) /\
    (errors_logged lines + 2 * n = 2 * 3)%nat.
Proof.
  split; [reflexivity|].
  exact (errors_logged_twice_the_failures default_environ (fun _ => EmptyString)
           mixed_batch _ eq_refl eq_refl).
Defined.

(** ** Batches compose *)

(** X14: records are processed independently of one another: the details of
    a batch that is the concatenation of two batches are the details of the
    first followed by those of the second, and the counts add up. *)
Theorem batch_concatenation {U : unicode} env clock (first second : list json) :
  exists r1 r2 r d1 d2 n1 n2,
    snd (lambda_handler env clock (JDict [("Records", JList first)])) = OK r1 /\
    snd (lambda_handler env clock (JDict [("Records", JList second)])) = OK r2 /\
    snd (lambda_handler env clock (JDict [("Records", JList (first ++ second))]))
    = OK r /\
    body_field "details" r1 = Some (JList d1) /\
    body_field "details" r2 = Some (JList d2) /\
    body_field "details" r = Some (JList (d1 ++ d2)) /\
    body_field "records_processed" r1 = Some (JInt n1) /\
    body_field "records_processed" r2 = Some (JInt n2) /\
    body_field "records_processed" r = Some (JInt (n1 + n2)).
Proof.
  exists (make_response (kept first)), (make_response (kept second)),
         (make_response (kept (first ++ second))),
         (kept first), (kept second),
         (Z.of_nat (List.length (kept first))),
         (Z.of_nat (List.length (kept second))).
  split; [apply handler_on_records; reflexivity|].
  split; [apply handler_on_records; reflexivity|].
  split; [apply handler_on_records; reflexivity|].
  unfold body_field, make_response. cbn.
  rewrite kept_app, length_app, Nat2Z.inj_add. repeat split; reflexivity.
Qed.

(** ** Events that are not batches *)

(** X15: an event that is not an object, or whose ["Records"] is present and
    is [null], a number or a boolean, makes the handler raise after its two
    opening lines: [AttributeError] in the first case, [TypeError] in the
    second; no response is built or logged. *)
Theorem not_a_batch_raises {U : unicode} env clock event (Hnot : is_batch event = false) :
  exists e,
    lambda_handler env clock event
    = ([ info [Text "["; Text (project_name env); Text "] S3 Upload Event Received"];
         info [Text "Full Event: "; Dumped (json_dumps event)] ],
       Raise e) /\
    (is_dict event = false -> e = AttributeError (type_name event) "get") /\
    (is_dict event = true ->
     e = TypeError ("'" ++ type_name (field_or ["Records"] (JList []) event)
                    ++ "' object is not iterable")).
Proof.
  unfold is_batch in Hnot. unfold lambda_handler.
  destruct event as [| | | | | |fields];
    try (eexists; split; [reflexivity|]; split; [reflexivity|discriminate]).
  cbn [is_dict andb at_path] in Hnot. rewrite dict_get_dict.
  unfold field_or. cbn [at_path].
  destruct (lookup "Records" fields) as [batch|]; [|discriminate].
  cbn [absent_or] in Hnot.
  destruct batch; try discriminate;
    (eexists; split; [reflexivity|]; split; [discriminate|reflexivity]).
Qed.

Lemma not_a_batch_raises_witness :
  is_batch (JList []) = false /\
  exists e,
    lambda_handler default_environ (fun _ => EmptyString) (JList [])
    = ([ info [Text "["; Text "job-portal"; Text "] S3 Upload Event Received"];
         info [Text "Full Event: "; Dumped (json_dumps (JList []))] ],
       Raise e) /\
    (is_dict (JList []) = false -> e = AttributeError "list" "get") /\
    (is_dict (JList []) = true ->
     e = TypeError ("'" ++ type_name (field_or ["Records"] (JList []) (JList []))
                    ++ "' object is not iterable")).
Proof.
  split; [reflexivity|].
  exact (not_a_batch_raises default_environ (fun _ => EmptyString) (JList []) eq_refl).
Defined.

(** ** Batches that are not arrays *)

Lemma kept_of_strings {U : unicode} (items : list string) :
  kept (map JStr items) = [].
Proof.
  induction items as [|s items IH]; [reflexivity|]. exact IH.
Qed.

Lemma process_records_strings {U : unicode} env clock (items : list string) :
  forall k acc,
    process_records env clock k (map JStr items) acc
    = (flat_map string_lines items, acc).
Proof.
  induction items as [|item items IH]; intros k acc; [reflexivity|].
  cbn [map process_records flat_map].
  change (process_record env (clock k) (JStr item))
    with (string_lines item, @Raise json (AttributeError "str" "get")).
  cbn iota. rewrite IH. reflexivity.
Qed.

Lemma errors_logged_strings (items : list string) :
  errors_logged (flat_map string_lines items) = (2 * List.length items)%nat.
Proof.
  induction items as [|item items IH]; [reflexivity|].
  cbn [flat_map]. rewrite errors_logged_app, IH. cbn [List.length].
  change (errors_logged (string_lines item)) with 2%nat. lia.
Qed.

(** X16: when ["Records"] is a string or an object instead of an array, the
    loop runs over the characters of the string, one item for each
    character whatever the number of its bytes, or over the keys of the
    object, in order; each item raises and is logged on two ERROR lines,
    between the opening lines and the line of the response; the response
    reports success with no record processed. *)
Theorem records_not_an_array {U : unicode} env clock event batch
    (Hevent : is_dict event = true)
    (Hrecords : field_or ["Records"] (JList []) event = batch)
    (Hbatch : (is_str batch || is_dict batch)%bool = true) :
  exists lines r items,
    lambda_handler env clock event = (lines, OK r) /\
    iterate batch = OK (map JStr items) /\
    (forall s, batch = JStr s ->
       items = characters s /\
       Forall (fun item => is_character item = true) items /\
       (leading_continuation s = false -> join items = s) /\
       (is_ascii s = true -> List.length items = String.length s)) /\
    (forall fields, batch = JDict fields -> items = map fst fields) /\
    lines
    = ([ info [Text "["; Text (project_name env); Text "] S3 Upload Event Received"];
         info [Text "Full Event: "; Dumped (json_dumps event)] ]
       ++ flat_map
            (fun item =>
               [ error [Text "Error processing record: ";
                        Exception (AttributeError "str" "get")];
                 error [Text "Record: "; Dumped (json_dumps (JStr item))] ])
            items
       ++ [ info [Text "Lambda Response: "; Returned r] ])%list /\
    statusCode r = 200 /\
    body_field "records_processed" r = Some (JInt 0) /\
    body_field "details" r = Some (JList []) /\
    (errors_logged lines = 2 * List.length items)%nat.
Proof.
  assert (Hitems : exists items,
             iterate batch = OK (map JStr items) /\
             (forall s, batch = JStr s ->
                items = characters s /\
                Forall (fun item => is_character item = true) items /\
                (leading_continuation s = false -> join items = s) /\
                (is_ascii s = true -> List.length items = String.length s)) /\
             (forall fields, batch = JDict fields -> items = map fst fields)).
  { destruct batch as [| | | |s|l|fields]; try discriminate; cbn [iterate].
    - exists (characters s). split; [reflexivity|]. split; [|discriminate].
      intros s' Hs. injection Hs as <-. split; [reflexivity|].
      split; [exact (proj1 (characters_join s))|].
      split; [exact (proj2 (characters_join s))|].
      intros Ha. exact (proj2 (characters_ascii s Ha)).
    - exists (map fst fields). rewrite map_map. split; [reflexivity|].
      split; [discriminate|]. intros fields' Hf. injection Hf as <-. reflexivity. }
  destruct Hitems as (items & Hiter & Hstr & Hdict).
  pose proof (dict_get_field_or event "Records" (JList []) Hevent) as Hget.
  rewrite Hrecords in Hget.
  unfold lambda_handler. rewrite Hget, Hiter.
  rewrite process_records_strings.
  eexists _, _, items.
  split; [reflexivity|]. split; [reflexivity|].
  split; [exact Hstr|]. split; [exact Hdict|].
  split; [reflexivity|].
  split; [reflexivity|]. split; [reflexivity|]. split; [reflexivity|].
  rewrite !errors_logged_app.
  change (fun item => _) with string_lines.
  rewrite errors_logged_strings.
  change (errors_logged
            [info [Text "["; Text (project_name env);
                   Text "] S3 Upload Event Received"];
             info [Text "Full Event: "; Dumped (json_dumps event)]]) with 0%nat.
  change (errors_logged [info [Text "Lambda Response: ";
                               Returned (make_response [])]]) with 0%nat.
  lia.
Qed.

(** ["Records"] given as the text ["ab"]: two items, four ERROR lines. *)
Lemma records_not_an_array_witness :
  exists lines r items,
    lambda_handler default_environ (fun _ => EmptyString)
      (JDict [("Records", JStr "ab")]) = (lines, OK r) /\
    iterate (JStr "ab") = OK (map JStr items) /\
    (forall s, JStr "ab" = JStr s ->
       items = characters s /\
       Forall (fun item => is_character item = true) items /\
       (leading_continuation s = false -> join items = s) /\
       (is_ascii s = true -> List.length items = String.length s)) /\
    (forall fields, JStr "ab" = JDict fields -> items = map fst fields) /\
    lines
    = ([ info [Text "["; Text "job-portal"; Text "] S3 Upload Event Received"];
         info [Text "Full Event: ";
               Dumped (json_dumps (JDict [("Records", JStr "ab")]))] ]
       ++ flat_map
            (fun item =>
               [ error [Text "Error processing record: ";
                        Exception (AttributeError "str" "get")];
                 error [Text "Record: "; Dumped (json_dumps (JStr item))] ])
            items
       ++ [ info [Text "Lambda Response: "; Returned r] ])%list /\
    statusCode r = 200 /\
    body_field "records_processed" r = Some (JInt 0) /\
    body_field "details" r = Some (JList []) /\
    (errors_logged lines = 2 * List.length items)%nat.
Proof.
  exact (records_not_an_array default_environ (fun _ => EmptyString)
           (JDict [("Records", JStr "ab")]) (JStr "ab") eq_refl eq_refl eq_refl).
Defined.

(** ** Fields the loop body does not read *)

Lemma lookup_insert_other key key' value before after :
  key' <> key ->
  lookup key' (before ++ (key, value) :: after) = lookup key' (before ++ after).
Proof.
  intros Hne. induction before as [|[k v] before IH]; cbn [app lookup].
  - destruct (String.eqb_spec key' key); [contradiction|reflexivity].
  - rewrite IH. reflexivity.
Qed.

(** X17: a top-level field of a record other than ["s3"],
    ["requestParameters"] and ["userIdentity"] has no effect on what the
    record contributes: with or without it, whatever its value, the loop
    body returns the same entry or raises the same exception. *)
Theorem unread_field_ignored {U : unicode} env now key value before after
    (Hkey : ~ In key ["s3"; "requestParameters"; "userIdentity"]) :
  snd (process_record env now (JDict (before ++ (key, value) :: after)))
  = snd (process_record env now (JDict (before ++ after))).
Proof.
  rewrite !process_record_entry. unfold record_entry.
  rewrite !dict_get_dict.
  rewrite !(lookup_insert_other key _ value before after);
    try (intros Heq; apply Hkey; rewrite <- Heq; simpl; tauto).
  reflexivity.
Qed.

Lemma unread_field_ignored_witness :
  ~ In "awsRegion" ["s3"; "requestParameters"; "userIdentity"] /\
  snd (process_record default_environ EmptyString
         (JDict ([("eventName", JStr "ObjectCreated:Put")]
                 ++ ("awsRegion", JStr "us-east-1")
                 :: [("s3", JDict [("object", JDict [("key", JStr "a.csv")])])])))
  = snd (process_record default_environ EmptyString
           (JDict ([("eventName", JStr "ObjectCreated:Put")]
                   ++ [("s3", JDict [("object", JDict [("key", JStr "a.csv")])])]))).
Proof.
  assert (H : ~ In "awsRegion" ["s3"; "requestParameters"; "userIdentity"]).
  { simpl. intros [H|[H|[H|[]]]]; discriminate H. }
  split; [exact H|].
  exact (unread_field_ignored default_environ EmptyString "awsRegion"
           (JStr "us-east-1") _ _ H).
Defined.

(** ** Sizes and keys of the wrong type *)

(** X18: a record whose size is present and is a string, [null], an array
    or an object is always skipped: the loop body raises, and the [except]
    clause logs the exception. *)
Theorem non_number_size_skipped {U : unicode} env now record size
    (Hsize : at_path ["s3"; "object"; "size"] record = Some size)
    (Htype : is_number size = false) :
  exists e,
    snd (process_record env now record) = Raise e /\
    In (error [Text "Error processing record: "; Exception e])
       (fst (process_record env now record)).
Proof.
  destruct (snd (process_record env now record)) as [entry|e] eqn:Hrun.
  - exfalso. rewrite process_record_entry in Hrun. unfold record_entry in Hrun.
    apply bind_ok in Hrun. destruct Hrun as (s3_info & Hs3 & H).
    apply bind_ok in H. destruct H as (bucket_dict & _ & H).
    apply bind_ok in H. destruct H as (bucket_name & _ & H).
    apply bind_ok in H. destruct H as (object_dict & Hobject & H).
    apply bind_ok in H. destruct H as (key & _ & H).
    apply bind_ok in H. destruct H as (object_size & Hget & H).
    apply bind_ok in H. destruct H as (readable & Hfmt & _).
    rewrite (dict_get_leaf3 _ _ _ _ _ _ _ _ Hs3 Hobject Hget) in Hfmt.
    unfold field_or in Hfmt. rewrite Hsize in Hfmt.
    rewrite (format_size_not_number size Htype) in Hfmt. discriminate.
  - exists e. split; [reflexivity|].
    exact (proj1 (process_record_raise env now record e Hrun)).
Qed.

Lemma non_number_size_skipped_witness :
  at_path ["s3"; "object"; "size"] text_size_record = Some (JStr "1024") /\
  exists e,
    snd (process_record default_environ EmptyString text_size_record) = Raise e /\
    In (error [Text "Error processing record: "; Exception e])
       (fst (process_record default_environ EmptyString text_size_record)).
Proof.
  split; [reflexivity|].
  exact (non_number_size_skipped default_environ EmptyString text_size_record
           (JStr "1024") eq_refl eq_refl).
Defined.

(** X19: a record of the expected shape whose key is [null], a boolean or a
    number is logged as an upload and then skipped: the log of the record
    is the nine lines of its details, none of them an ERROR line, the key
    on the sixth, and after them the two ERROR lines of the [except]
    clause, the exception first and the raw record last; the record
    contributes no entry. *)
Theorem details_logged_then_skipped {U : unicode} env now record key
    (Hshape : well_shaped record = true)
    (Hkey : at_path ["s3"; "object"; "key"] record = Some key)
    (Htype : is_scalar_not_string key = true) :
  exists details message,
    process_record env now record
    = ((details
        ++ [ error [Text "Error processing record: "; Exception (TypeError message)];
             error [Text "Record: "; Dumped (json_dumps record)] ])%list,
       Raise (TypeError message)) /\
    List.length details = 9%nat /\
    errors_logged details = 0%nat /\
    nth_error details 1 = Some (info [Text "S3 UPLOAD EVENT DETAILS"]) /\
    nth_error details 5 = Some (info [Text "Object Key: "; Value key]).
Proof.
  destruct (extract_well_shaped env now record Hshape) as (readable & _ & Hex).
  unfold process_record. rewrite Hex. cbn [object_key].
  unfold field_or. rewrite Hkey.
  destruct key; try discriminate;
    (eexists _, _; split; [reflexivity|]; repeat split).
Qed.

Lemma details_logged_then_skipped_witness :
  exists details message,
    process_record default_environ EmptyString numeric_key_record
    = ((details
        ++ [ error [Text "Error processing record: "; Exception (TypeError message)];
             error [Text "Record: "; Dumped (json_dumps numeric_key_record)] ])%list,
       Raise (TypeError message)) /\
    List.length details = 9%nat /\
    errors_logged details = 0%nat /\
    nth_error details 1 = Some (info [Text "S3 UPLOAD EVENT DETAILS"]) /\
    nth_error details 5 = Some (info [Text "Object Key: "; Value (JInt 42)]).
Proof.
  exact (details_logged_then_skipped default_environ EmptyString
           numeric_key_record (JInt 42) eq_refl eq_refl eq_refl).
Defined.

(** ** From the key to the category, through the handler *)

(** X20: a well-formed record whose key ends in a '.' followed by a listed
    extension, in any case, gets the category of that extension. *)
Theorem key_suffix_category {U : unicode} env now record stem suffix category extensions
    (Hwf : well_formed record = true)
    (Hkey : at_path ["s3"; "object"; "key"] record
            = Some (JStr (stem ++ String dot suffix)))
    (Hsuffix : has_char dot suffix = false)
    (Hcat : In (category, extensions) categories)
    (Hext : In (lower suffix) extensions) :
  snd (process_record env now record)
  = OK (JDict [("bucket", field_or ["s3"; "bucket"; "name"] (JStr "Unknown") record);
               ("key", JStr (stem ++ String dot suffix));
               ("category", JStr category)]).
Proof.
  rewrite process_record_entry, (record_entry_well_formed record Hwf).
  unfold entry_for, field_or at 2 3. rewrite Hkey. cbn [key_category].
  rewrite (key_extension_suffix stem suffix Hsuffix).
  rewrite (categorize_file_member (lower suffix) category extensions Hcat);
    [reflexivity|].
  rewrite lower_idempotent. exact Hext.
Qed.

Lemma key_suffix_category_witness :
  well_formed upper_case_record = true /\
  snd (process_record default_environ EmptyString upper_case_record)
  = OK (JDict [("bucket", JStr "Unknown");
               ("key", JStr "cv/Jane.Doe.DOCX");
               ("category", JStr "resume")]).
Proof.
  split; [reflexivity|].
  apply (key_suffix_category default_environ EmptyString upper_case_record
           "cv/Jane.Doe" "DOCX" "resume"
           ["pdf"; "doc"; "docx"; "txt"; "rtf"; "odt"]);
    [reflexivity|reflexivity|reflexivity|simpl; tauto|simpl; tauto].
Defined.

(** ** The log of a record that is processed *)

(** X21: a well-formed record is logged on twelve INFO lines and no ERROR
    line; among them the size line carries the text [format_size] returns
    for the size of the record, 0 when it is absent. *)
Theorem processed_record_log {U : unicode} env now record (Hwf : well_formed record = true) :
  exists lines entry readable,
    process_record env now record = (lines, OK entry) /\
    format_size (field_or ["s3"; "object"; "size"] (JInt 0) record) = OK readable /\
    In (info [Text "Size: "; Text readable; Text " (";
              Value (field_or ["s3"; "object"; "size"] (JInt 0) record);
              Text " bytes)"]) lines /\
    List.length lines = 12%nat /\
    errors_logged lines = 0%nat.
Proof.
  assert (Hshape : well_shaped record = true).
  { unfold well_formed in Hwf. apply andb_prop in Hwf. tauto. }
  destruct (extract_well_shaped env now record Hshape) as (readable & Hfmt & Hex).
  pose proof (record_entry_well_formed record Hwf) as Hentry.
  rewrite <- (process_record_entry env now record) in Hentry.
  unfold process_record in *. rewrite Hex in *. cbn [object_key] in *.
  destruct (file_extension _) as [extension|e]; [|discriminate].
  eexists _, _, readable.
  split; [reflexivity|]. split; [exact Hfmt|].
  split; [simpl; tauto|]. split; reflexivity.
Qed.

Lemma processed_record_log_witness :
  well_formed (JDict []) = true /\
  exists lines entry readable,
    process_record default_environ EmptyString (JDict []) = (lines, OK entry) /\
    format_size (JInt 0) = OK readable /\
    In (info [Text "Size: "; Text readable; Text " ("; Value (JInt 0);
              Text " bytes)"]) lines /\
    List.length lines = 12%nat /\
    errors_logged lines = 0%nat.
Proof.
  split; [reflexivity|].
  exact (processed_record_log default_environ EmptyString (JDict []) eq_refl).
Defined.

(** ** Sizes written as floats *)

Lemma steps_unit_index p :
  Zpos p < overflow_threshold ->
  steps 4 (rounded_exponent p 0) = unit_index (Zpos p).
Proof.
  intros Hx. destruct (Z_lt_le_dec (Zpos p) 1024) as [Hs|Hb].
  - rewrite unit_index_small by lia.
    assert (Z.log2 (Zpos p) < 10) by (apply Z.log2_lt_pow2; lia).
    assert (Hc : carries p = false).
    { unfold carries. replace (53 <? Z.log2 (Zpos p) + 1) with false by lia.
      reflexivity. }
    unfold rounded_exponent. rewrite Hc. cbn [steps].
    replace (-42 <=? Z.log2 (Zpos p) + 1 + 0 - 53 + 0) with false by lia.
    reflexivity.
  - rewrite (unit_index_steps p Hb).
    assert (10 <= Z.log2 (Zpos p)) by (apply Z.log2_le_pow2; lia).
    change (steps 4 (rounded_exponent p 0))
      with (if -42 <=? rounded_exponent p 0
            then S (steps 3 (rounded_exponent p 0 - 10)) else 0%nat).
    replace (rounded_exponent p 0 - 10) with (rounded_exponent p (-10))
      by (unfold rounded_exponent; lia).
    replace (-42 <=? rounded_exponent p 0) with true; [reflexivity|].
    symmetry. apply Z.leb_le. unfold rounded_exponent. destruct (carries p); lia.
Qed.

(** X22: a byte count written as a float is formatted like the same count
    written as an integer. *)
Theorem format_size_float_agrees (x : Z) (Hx : 0 < x < 2 ^ 1023) :
  format_size (JFloat (F64.of_Z x)) = format_size (JInt x).
Proof.
  destruct Hx as [H0 Hx].
  assert (Ht : x < overflow_threshold).
  { apply Z.lt_trans with (2 ^ 1023); [exact Hx|reflexivity]. }
  rewrite (format_size_closed_form x (conj H0 Ht)).
  destruct x as [|p|p]; try lia.
  destruct (of_scaled_pos p) as (m & Hd & Hof).
  assert (Hre : rounded_exponent p 0 <= 971).
  { unfold rounded_exponent.
    assert (Z.log2 (Zpos p) < 1023) by (apply Z.log2_lt_pow2; lia).
    destruct (carries p); lia. }
  pose proof (unit_index_le (Zpos p)) as Hi.
  unfold F64.of_Z. rewrite (Hof 0) by lia.
  replace (rounded_exponent p 0 <=? 971) with true by lia.
  rewrite (Hof (- (10 * Z.of_nat (unit_index (Zpos p))))) by lia.
  replace (rounded_exponent p (- (10 * Z.of_nat (unit_index (Zpos p)))))
    with (rounded_exponent p 0 - 10 * Z.of_nat (unit_index (Zpos p)))
    by (unfold rounded_exponent; lia).
  replace (rounded_exponent p 0 - 10 * Z.of_nat (unit_index (Zpos p)) <=? 971)
    with true by lia.
  unfold format_size. cbn [eq_zero SFeqb SFcompare].
  change (List.length size_names - 1)%nat with 4%nat.
  rewrite (advance_normal 4 m _ 0 Hd) by lia.
  rewrite (steps_unit_index p Ht).
  cbn [bind format_value_2f Nat.add].
  destruct (index_name_unit (Zpos p)) as [-> _]. reflexivity.
Qed.

Lemma format_size_float_agrees_witness :
  0 < 1536 < 2 ^ 1023 /\
  format_size (JFloat (F64.of_Z 1536)) = OK "1.50 KB" /\
  format_size (JInt 1536) = OK "1.50 KB".
Proof.
  split; [split; reflexivity|].
  pose proof (format_size_float_agrees 1536 (conj eq_refl eq_refl)) as H.
  split; [rewrite H|]; reflexivity.
Defined.
